(** * Chatwork API v2 client (src/main.ts): request building, parameter
      encoding, validation and error classification.

    The client is a TypeScript class whose methods take loosely typed
    arguments (the types are erased at run time), mutate the caller's
    parameter object in place, issue one call through an injected
    fetch-style transport and turn a non-2xx status into a typed error.

    The embedding follows the source:
    - JavaScript values are a small tagged union ([value]); objects are
      association lists in insertion order, which is the order
      [Object.entries] enumerates (the keys used here are identifiers,
      never array indices);
    - strings are Rocq strings read as UTF-8 byte sequences, so that the
      form serializer's percent-encoding is the one of the URL standard;
    - effects (console output, calls through the transport, exceptions)
      live in the monad [M], a state monad over [world] whose result is
      either a thrown [JsError] or a value; the state survives a throw, so
      the calls made before an exception stay observable;
    - the transport answers a call with a response or rejects it, and the
      decoding of the body of a response can be rejected as well; a
      rejection is thrown as it is, after the call;
    - what the engine or the platform decides (date parsing, the local
      time zone, the textual form of a date, the case mapping outside
      ASCII) is the class [JsEngine]. *)

From Stdlib Require Import String Ascii ZArith List Lia Bool DecimalString
  DecimalZ.
From ExtLib Require Import Structures.Monad.
Import ListNotations.
Import MonadNotation.

Local Open Scope string_scope.
Local Open Scope monad_scope.

(* ===================================================================== *)
(** ** Strings *)
(* ===================================================================== *)

(** The character U+0022, which a string literal cannot hold directly. *)
Definition dquote : string := String "034"%char EmptyString.

Definition bytes (l : list nat) : string :=
  string_of_list_ascii (map ascii_of_nat l).

(** ECMAScript [WhiteSpace] and [LineTerminator] code points, as UTF-8. *)
Definition whiteSpace : list string :=
  [ bytes [9]; bytes [10]; bytes [11]; bytes [12]; bytes [13]; bytes [32]
  ; bytes [194; 160]                                   (* U+00A0 *)
  ; bytes [225; 154; 128]                              (* U+1680 *)
  ; bytes [226; 128; 128]; bytes [226; 128; 129]       (* U+2000 .. *)
  ; bytes [226; 128; 130]; bytes [226; 128; 131]
  ; bytes [226; 128; 132]; bytes [226; 128; 133]
  ; bytes [226; 128; 134]; bytes [226; 128; 135]
  ; bytes [226; 128; 136]; bytes [226; 128; 137]
  ; bytes [226; 128; 138]                              (* .. U+200A *)
  ; bytes [226; 128; 168]; bytes [226; 128; 169]       (* U+2028, U+2029 *)
  ; bytes [226; 128; 175]                              (* U+202F *)
  ; bytes [226; 129; 159]                              (* U+205F *)
  ; bytes [227; 128; 128]                              (* U+3000 *)
  ; bytes [239; 187; 191] ].                           (* U+FEFF *)

Definition reverse (s : string) : string :=
  string_of_list_ascii (rev (list_ascii_of_string s)).

(** [dropPrefix p s] is the rest of [s] after its prefix [p], if it has it. *)
Fixpoint dropPrefix (p s : string) : option string :=
  match p with
  | EmptyString => Some s
  | String a p' =>
      match s with
      | EmptyString => None
      | String b s' => if Ascii.eqb a b then dropPrefix p' s' else None
      end
  end.

Fixpoint dropFirst (ps : list string) (s : string) : option string :=
  match ps with
  | [] => None
  | p :: ps' =>
      match dropPrefix p s with
      | Some r => Some r
      | None => dropFirst ps' s
      end
  end.

Fixpoint dropWhile (ps : list string) (fuel : nat) (s : string) : string :=
  match fuel with
  | O => s
  | S fuel' =>
      match dropFirst ps s with
      | Some r => dropWhile ps fuel' r
      | None => s
      end
  end.

Definition trimStart (s : string) : string :=
  dropWhile whiteSpace (String.length s) s.

Definition trimEnd (s : string) : string :=
  reverse (dropWhile (map reverse whiteSpace) (String.length s) (reverse s)).

(** [String.prototype.trim]. *)
Definition trim (s : string) : string := trimEnd (trimStart s).

Definition lowerAscii (a : ascii) : ascii :=
  let n := nat_of_ascii a in
  if ((65 <=? n)%nat && (n <=? 90)%nat)%bool then ascii_of_nat (n + 32) else a.

(** The lower-case form of a string of ASCII characters: the letters A
    to Z become a to z, every other character is kept. *)
Fixpoint lowerCaseAscii (s : string) : string :=
  match s with
  | EmptyString => EmptyString
  | String a s' => String (lowerAscii a) (lowerCaseAscii s')
  end.

(** The strings whose characters are all ASCII. *)
Fixpoint isAscii (s : string) : bool :=
  match s with
  | EmptyString => true
  | String a s' => (nat_of_ascii a <? 128)%nat && isAscii s'
  end.

Local Open Scope Z_scope.

(** The decimal numeral of an integer, as [Number.prototype.toString]
    prints an integer-valued number below 10^21. *)
Definition decimal (z : Z) : string := NilZero.string_of_int (Z.to_int z).

(* ===================================================================== *)
(** ** JavaScript values *)
(* ===================================================================== *)

(** Numbers: the integers, NaN and the two infinities.  Finite numbers
    with a fractional part are not represented. *)
Inductive number : Type :=
| NInt (z : Z)
| NNaN
| NInf (negative : bool).

Set Warnings "-register-all".

(** A [Date] holds a time value in milliseconds since the epoch, or NaN
    ([None], an invalid date).  A [Blob] holds its bytes and its media
    type; a [File] is a blob with a name ([Some]). *)
Inductive value : Type :=
| VUndefined
| VNull
| VBool (b : bool)
| VNum (n : number)
| VStr (s : string)
| VArr (l : list value)
| VDate (tv : option Z)
| VBlob (content type : string) (name : option string)
| VUint8Array (content : string).

(** An object literal: own enumerable string-keyed properties, in
    insertion order. *)
Definition object : Type := list (string * value).

(** What the engine and the platform decide. *)
Class JsEngine : Type := {
  (** [Date.parse]: the time value of a date string, [None] for NaN. *)
  Date_parse : string -> option Z;
  (** The offset of local time from UTC, in milliseconds, at a UTC time. *)
  LocalTZA : Z -> Z;
  (** [Date.prototype.toString] of a valid date. *)
  Date_toString : Z -> string;
  (** [String.prototype.toLowerCase]: the Unicode case mapping of the
      engine, of which only its action on ASCII strings is fixed. *)
  toLowerCase : string -> string;
  toLowerCase_ascii :
    forall s : string, isAscii s = true -> toLowerCase s = lowerCaseAscii s
}.

(** [ToBoolean]. *)
Definition truthy (v : value) : bool :=
  match v with
  | VUndefined | VNull => false
  | VBool b => b
  | VNum (NInt z) => negb (z =? 0)
  | VNum NNaN => false
  | VNum (NInf _) => true
  | VStr s => negb (s =? "")%string
  | VArr _ | VDate _ | VBlob _ _ _ | VUint8Array _ => true
  end.

Definition typeof (v : value) : string :=
  match v with
  | VUndefined => "undefined"
  | VNull => "object"
  | VBool _ => "boolean"
  | VNum _ => "number"
  | VStr _ => "string"
  | VArr _ | VDate _ | VBlob _ _ _ | VUint8Array _ => "object"
  end.

Definition isArray (v : value) : bool :=
  match v with VArr _ => true | _ => false end.

Definition Number_toString (n : number) : string :=
  match n with
  | NInt z => decimal z
  | NNaN => "NaN"
  | NInf false => "Infinity"
  | NInf true => "-Infinity"
  end.

Section Engine.
Context {engine : JsEngine}.

(** [ToString]; an array prints as its elements joined by commas, where
    an undefined or null element prints as the empty string. *)
Fixpoint ToString (v : value) : string :=
  match v with
  | VUndefined => "undefined"
  | VNull => "null"
  | VBool true => "true"
  | VBool false => "false"
  | VNum n => Number_toString n
  | VStr s => s
  | VArr l =>
      String.concat ","
        (map (fun x => match x with
                       | VUndefined | VNull => ""
                       | _ => ToString x
                       end) l)
  | VDate None => "Invalid Date"
  | VDate (Some t) => Date_toString t
  | VBlob _ _ None => "[object Blob]"
  | VBlob _ _ (Some _) => "[object File]"
  | VUint8Array content =>
      String.concat ","
        (map (fun a => decimal (Z.of_nat (nat_of_ascii a)))
             (list_ascii_of_string content))
  end.

(** The string an element contributes to [Array.prototype.join]. *)
Definition joinElement (x : value) : string :=
  match x with
  | VUndefined | VNull => ""
  | _ => ToString x
  end.

(** [Array.prototype.join]. *)
Definition join (l : list value) (separator : string) : string :=
  String.concat separator (map joinElement l).

End Engine.

(* ===================================================================== *)
(** ** Objects *)
(* ===================================================================== *)

(** [o.k]: the value of the property, [undefined] when [o] has none. *)
Fixpoint get (o : object) (k : string) : value :=
  match o with
  | [] => VUndefined
  | (k', v) :: o' => if (k' =? k)%string then v else get o' k
  end.

(** [o.k = v]: an existing property keeps its place, a new one goes last. *)
Fixpoint set (o : object) (k : string) (v : value) : object :=
  match o with
  | [] => [(k, v)]
  | (k', v') :: o' =>
      if (k' =? k)%string then (k, v) :: o' else (k', v') :: set o' k v
  end.

(** [delete o.k]. *)
Fixpoint delete (o : object) (k : string) : object :=
  match o with
  | [] => []
  | (k', v') :: o' =>
      if (k' =? k)%string then delete o' k else (k', v') :: delete o' k
  end.

(** [Object.entries]. *)
Definition entries (o : object) : list (string * value) := o.

(** The first value recorded under a name in a list of string pairs
    ([URLSearchParams.prototype.get], [Headers.prototype.get]). *)
Fixpoint lookup (ps : list (string * string)) (k : string) : option string :=
  match ps with
  | [] => None
  | (k', v) :: ps' => if (k' =? k)%string then Some v else lookup ps' k
  end.

(* ===================================================================== *)
(** ** Errors *)
(* ===================================================================== *)

(** Where a thrown value was built: by the program ([new Error]), by the
    engine while it ran the code of the client ([TypeError]), by one of
    the three error classes of the client, or outside the client
    ([Rejected]: the reason of a promise the transport or a response
    rejected; the classes of the client are not exported, so such a reason
    is an instance of none of them). *)
Inductive ErrorClass : Type :=
| PlainError
| TypeError
| ChatworkErrorClass
| MissingParameterErrorClass
| InvalidParameterErrorClass
| Rejected.

(** A thrown value: where it was built, and its [name] and [message]
    properties. *)
Record JsError : Type := mkError {
  class : ErrorClass;
  name : string;
  message : string
}.

(** The reason of a rejected promise, as far as it can be read: its
    [name] and [message]. *)
Record Rejection : Type := mkRejection {
  reason_name : string;
  reason_message : string
}.

(** What [await] throws for a promise rejected with a reason. *)
Definition rejected (reason : Rejection) : JsError :=
  mkError Rejected (reason_name reason) (reason_message reason).

(** [new Error(msg)]. *)
Definition Error (msg : string) : JsError := mkError PlainError "Error" msg.

(** The [TypeError] of calling a method the receiver does not have. *)
Definition notAFunction (what : string) : JsError :=
  mkError TypeError "TypeError" (what ++ " is not a function").

(** [new ChatworkError(statusCode, resourceType)]; the second argument
    takes its default when it is not passed. *)
Definition ChatworkError (statusCode : Z) (resourceType : option string)
  : JsError :=
  let resourceType :=
    match resourceType with Some r => r | None => "リソース" end in
  if statusCode =? 400 then
    mkError ChatworkErrorClass "IncorrectParametersError"
      "リクエストまたはアクセストークンのパラメーターが不足している、および不正な値が指定されている"
  else if statusCode =? 401 then
    mkError ChatworkErrorClass "UnauthorizedError" "認証に失敗した"
  else if statusCode =? 403 then
    mkError ChatworkErrorClass "ForbiddenError"
      "アクセストークンのスコープが不足している"
  else if statusCode =? 404 then
    mkError ChatworkErrorClass "NotFoundError" (resourceType ++ "が存在しない")
  else if statusCode =? 429 then
    mkError ChatworkErrorClass "RateLimitError" "APIの利用回数制限を超過した"
  else
    mkError ChatworkErrorClass ("UnknownChatworkError " ++ decimal statusCode)
      "不明なエラー".

Definition MissingParameterError (missingParam : string) : JsError :=
  mkError MissingParameterErrorClass "Error"
    (missingParam ++ " は必須パラメータです。").

Definition InvalidParameterError (invalidParam paramVal expectedParamVal : string)
  : JsError :=
  mkError InvalidParameterErrorClass "Error"
    (invalidParam ++ " が " ++ paramVal ++ " となっているが、 "
       ++ expectedParamVal ++ " とすべきである。").

(* ===================================================================== *)
(** ** The transport and the runtime *)
(* ===================================================================== *)

Definition HeadersInit : Type := list (string * string).

(** A field of a multipart form: text, or a file part with its bytes,
    its media type and its file name. *)
Inductive FormDataEntryValue : Type :=
| TextEntry (s : string)
| FileEntry (content type filename : string).

Inductive BodyInit : Type :=
| URLSearchParams (pairs : list (string * string))
| FormData (fields : list (string * FormDataEntryValue)).

(** The second argument of [fetch]; an absent member is [None]. *)
Record RequestInit : Type := mkInit {
  method : option string;
  headers : HeadersInit;
  body : option BodyInit
}.

(** What the client reads of a [Response].  [json] is what the promise of
    [res.json()] settles to: the decoded body, which the client hands back
    untouched, or the reason of its rejection (a body that is no JSON). *)
Record Response : Type := mkResponse {
  ok : bool;
  status : Z;
  json : Rejection + string
}.

(** A fetch implementation: what the promise of [fetch(url, init)]
    settles to, a response or the reason of its rejection (a network
    failure, for one).  A method awaits one call at most, so the answer
    to a request is all it sees of the transport. *)
Definition Fetch : Type := string -> RequestInit -> Rejection + Response.

(** The state of the runtime around the client: the process environment,
    the entries of the [.env] file of the working directory ([None]: no
    such file), the global [fetch], and what the program has done so far:
    the lines written to the console (method and text) and the calls made
    through a transport, oldest first. *)
Record world : Type := mkWorld {
  env : list (string * string);
  dotenv : option (list (string * string));
  globalFetch : Fetch;
  console : list (string * string);
  calls : list (string * RequestInit)
}.

(** Computations: the state survives a throw. *)
Definition M (A : Type) : Type := world -> (JsError + A) * world.

#[global] Instance Monad_M : Monad M := {
  ret := fun _ a w => (inr a, w);
  bind := fun _ _ c k w =>
    match c w with
    | (inl e, w') => (inl e, w')
    | (inr a, w') => k a w'
    end
}.

Definition throw {A : Type} (e : JsError) : M A := fun w => (inl e, w).

(** [console.log], [console.warn], [console.error]. *)
Definition console_write (how text : string) : M unit :=
  fun w =>
    (inr tt,
     mkWorld (env w) (dotenv w) (globalFetch w)
             (console w ++ [(how, text)]) (calls w)).

(** [Deno.env.get]. *)
Definition Deno_env_get (variable : string) : M (option string) :=
  fun w => (inr (lookup (env w) variable), w).

(** [loadSync()] of [@std/dotenv]: the entries of [./.env], none when
    there is no such file. *)
Definition loadSync : M (list (string * string)) :=
  fun w => (inr (match dotenv w with Some kv => kv | None => [] end), w).

Definition getGlobalFetch : M Fetch := fun w => (inr (globalFetch w), w).

(** [await] of a settled promise. *)
Definition await {A : Type} (settled : Rejection + A) : M A :=
  match settled with
  | inl reason => throw (rejected reason)
  | inr a => ret a
  end.

(** [await f(url, init)]: the call is recorded, and its answer awaited. *)
Definition call (f : Fetch) (url : string) (init : RequestInit) : M Response :=
  fun w =>
    await (f url init)
      (mkWorld (env w) (dotenv w) (globalFetch w)
               (console w) (calls w ++ [(url, init)])).

(* ===================================================================== *)
(** ** The form serializer *)
(* ===================================================================== *)

Definition hexDigit (n : nat) : ascii :=
  ascii_of_nat (if (n <? 10)%nat then 48 + n else 55 + n).

(** The [application/x-www-form-urlencoded] byte serializer. *)
Definition urlencodeByte (a : ascii) : string :=
  let n := nat_of_ascii a in
  if (((48 <=? n) && (n <=? 57)) || ((65 <=? n) && (n <=? 90))
      || ((97 <=? n) && (n <=? 122))
      || (n =? 42) || (n =? 45) || (n =? 46) || (n =? 95))%nat%bool
  then String a EmptyString
  else if (n =? 32)%nat then "+"
  else String "%" (String (hexDigit (n / 16)) (String (hexDigit (n mod 16))
                                                   EmptyString)).

Fixpoint urlencode (s : string) : string :=
  match s with
  | EmptyString => EmptyString
  | String a s' => urlencodeByte a ++ urlencode s'
  end.

(** [URLSearchParams.prototype.toString]: the body a transport sends. *)
Definition URLSearchParams_toString (pairs : list (string * string)) : string :=
  String.concat "&"
    (map (fun p => urlencode (fst p) ++ "=" ++ urlencode (snd p)) pairs).

(* ===================================================================== *)
(** ** Dates *)
(* ===================================================================== *)

(** [TimeClip] of a number. *)
Definition TimeClip (n : number) : option Z :=
  match n with
  | NInt z => if Z.abs z <=? 8640000000000000 then Some z else None
  | NNaN | NInf _ => None
  end.

Section Dates.
Context {engine : JsEngine}.

(** [new Date(v)] for a string or a number. *)
Definition newDate (v : value) : value :=
  match v with
  | VStr s => VDate (Date_parse s)
  | VNum n => VDate (TimeClip n)
  | _ => v
  end.

Definition LocalTime (t : Z) : Z := t + LocalTZA t.

(** [getHours], [getMinutes], [getSeconds] of a time value; [None] is
    NaN. *)
Definition getHours (tv : option Z) : option Z :=
  option_map (fun t => (LocalTime t / 3600000) mod 24) tv.
Definition getMinutes (tv : option Z) : option Z :=
  option_map (fun t => (LocalTime t / 60000) mod 60) tv.
Definition getSeconds (tv : option Z) : option Z :=
  option_map (fun t => (LocalTime t / 1000) mod 60) tv.

(** [x === 0] for the result of a getter. *)
Definition isZero (x : option Z) : bool :=
  match x with Some z => z =? 0 | None => false end.

(** [Math.floor(d.getTime() / 1000).toString()]. *)
Definition epochSeconds (tv : option Z) : string :=
  match tv with
  | Some t => decimal (t / 1000)
  | None => "NaN"
  end.

End Dates.

(* ===================================================================== *)
(** ** The client *)
(* ===================================================================== *)

(** The argument of [ChatworkClient.create]. *)
Record ChatworkClientOptions : Type := mkOptions {
  token : string;
  fetchImpl : Fetch
}.

(** An instance: the public [token] and the private members [#fetch],
    [#DefaultHeaders] and [#FormDataHeaders]. *)
Record ChatworkClient : Type := mkClient {
  client_token : string;
  client_fetch : Fetch;
  DefaultHeaders : HeadersInit;
  FormDataHeaders : HeadersInit
}.

Definition apiV2Endpoint : string := "https://api.chatwork.com/v2".

(** The private constructor; the spread copies the default headers. *)
Definition constructor (options : ChatworkClientOptions) : ChatworkClient :=
  let DefaultHeaders :=
    [ ("accept", "application/json"); ("x-chatworktoken", token options) ] in
  mkClient (token options) (fetchImpl options) DefaultHeaders
    (DefaultHeaders
       ++ [ ("content-type", "application/x-www-form-urlencoded") ])%list.

(** [!s] for a value that is a string or undefined. *)
Definition noString (s : option string) : bool :=
  match s with
  | Some t => (t =? "")%string
  | None => true
  end.

(** [ChatworkClient.create(options)]; [None] is a call without argument,
    which takes the default [{ token: "", fetchImpl: fetch }].  The two
    permission requests are taken as granted. *)
Definition create (options : option ChatworkClientOptions)
  : M ChatworkClient :=
  fetch <- getGlobalFetch ;;
  let options :=
    match options with Some o => o | None => mkOptions "" fetch end in
  if (token options =? "")%string then
    console_write "error"
      "Chatwork APIトークンがChatworkClientコンストラクタに渡されていません。環境変数を確認中…" ;;
    envToken <- Deno_env_get "CW_API_TOKEN" ;;
    envToken <-
      (if noString envToken then
         console_write "error"
           "CW_API_TOKEN環境変数が定義されていません。カレントディレクトリに.envファイルがあるか確認中…" ;;
         envVars <- loadSync ;;
         ret (lookup envVars "CW_API_TOKEN")
       else ret envToken) ;;
    if noString envToken then
      throw (Error
        "新しいChatworkClientを初期化するときは、Chatwork APIトークンを渡すか、CW_API_TOKEN環境変数を定義する必要があります。")
    else
      let options :=
        mkOptions (match envToken with Some t => t | None => "" end)
                  (fetchImpl options) in
      ret (constructor options)
  else ret (constructor options).

Section Client.
Context {engine : JsEngine}.

(** [entryValuesAsStrings]. *)
Definition entryValuesAsStrings (entry : string * value) : string * string :=
  let (key, val) := entry in
  (key, match val with
        | VArr l => join l ","
        | _ => ToString val
        end).

(** [isValidTaskStatus]: the pattern is [/^(open|done)$/]. *)
Definition isValidTaskStatus (taskStatus : value) : bool :=
  if negb (truthy taskStatus) then false
  else
    let s := ToString taskStatus in
    ((s =? "open") || (s =? "done"))%string.

(** [isValidLimitType]: the pattern is [/^(none|date|time)$/]. *)
Definition isValidLimitType (taskLimitType : value) : bool :=
  if negb (truthy taskLimitType) then false
  else
    let s := ToString taskLimitType in
    ((s =? "none") || (s =? "date") || (s =? "time"))%string.

(** The loop of [queryStringFromParamsObject]. *)
Fixpoint definedParams (es : list (string * value)) : list string :=
  match es with
  | [] => []
  | (key, val) :: es' =>
      match val with
      | VUndefined | VNull => definedParams es'
      | _ => (key ++ "=" ++ ToString val) :: definedParams es'
      end
  end.

(** [queryStringFromParamsObject]; [None] is a missing argument. *)
Definition queryStringFromParamsObject (queryParams : option object) : string :=
  match queryParams with
  | None => ""
  | Some queryParams =>
      let definedParams := definedParams (entries queryParams) in
      if (0 <? length definedParams)%nat
      then "?" ++ String.concat "&" definedParams
      else ""
  end.

(** The block repeated for each list-valued field [k]:
    [if (Array.isArray(formData.k)) { console.log(...);
     formData.k = formData.k.join(","); }]. *)
Definition joinField (formData : object) (k : string) : M object :=
  match get formData k with
  | VArr l =>
      console_write "log"
        ("Joining " ++ k ++ " into comma-separated string...") ;;
      ret (set formData k (VStr (join l ",")))
  | _ => ret formData
  end.

(** [Object.entries(formData).map(entryValuesAsStrings)]. *)
Definition formPairs (formData : object) : list (string * string) :=
  map entryValuesAsStrings (entries formData).

(** [new URLSearchParams(Object.entries(formData).map(entryValuesAsStrings))]. *)
Definition formParamsOf (formData : object) : BodyInit :=
  URLSearchParams (formPairs formData).

(** The end of every method: [if (!res.ok) throw new ChatworkError(...);
    return await res.json();]. *)
Definition finish (res : Response) (resourceType : option string) : M string :=
  if negb (ok res) then throw (ChatworkError (status res) resourceType)
  else await (json res).

Definition postRooms (this : ChatworkClient) (formData : object) : M string :=
  if negb (truthy (get formData "name")) then
    throw (MissingParameterError "formData.name")
  else if negb (truthy (get formData "members_admin_ids")) then
    throw (MissingParameterError "formData.members_admin_ids")
  else
    formData <- joinField formData "members_admin_ids" ;;
    formData <- joinField formData "members_member_ids" ;;
    formData <- joinField formData "members_readonly_ids" ;;
    let formParams := formParamsOf formData in
    res <- call (client_fetch this) (apiV2Endpoint ++ "/rooms")
             (mkInit (Some "post") (FormDataHeaders this) (Some formParams)) ;;
    finish res None.

Definition getRoomMessages (this : ChatworkClient) (roomId : value)
    (queryParams : object) : M string :=
  if negb (truthy roomId) then throw (MissingParameterError "roomId")
  else
    let queryParams :=
      set queryParams "force"
        (VStr (if truthy (get queryParams "force") then "1" else "0")) in
    let queryString := queryStringFromParamsObject (Some queryParams) in
    res <- call (client_fetch this)
             (apiV2Endpoint ++ "/rooms/" ++ ToString roomId ++ "/messages"
                ++ queryString)
             (mkInit None (DefaultHeaders this) None) ;;
    finish res None.

Definition postRoomMessage (this : ChatworkClient) (roomId : value)
    (formData : object) : M string :=
  if negb (truthy roomId) then throw (MissingParameterError "roomId")
  else if negb (truthy (get formData "body")) then
    throw (MissingParameterError "formData.body")
  else
    let formData :=
      set formData "self_unread"
        (VStr (if truthy (get formData "self_unread") then "1" else "0")) in
    let formParams := formParamsOf formData in
    res <- call (client_fetch this)
             (apiV2Endpoint ++ "/rooms/" ++ ToString roomId ++ "/messages")
             (mkInit (Some "post") (FormDataHeaders this) (Some formParams)) ;;
    finish res None.

Definition putRoomMessagesRead (this : ChatworkClient) (roomId : value)
    (formData : object) : M string :=
  if negb (truthy roomId) then throw (MissingParameterError "roomId")
  else
    let formParams := formParamsOf formData in
    res <- call (client_fetch this)
             (apiV2Endpoint ++ "/rooms/" ++ ToString roomId ++ "/messages/read")
             (mkInit (Some "put") (FormDataHeaders this) (Some formParams)) ;;
    finish res (Some "メッセージ").

Definition putRoomMessagesUnread (this : ChatworkClient) (roomId : value)
    (formData : object) : M string :=
  if negb (truthy roomId) then throw (MissingParameterError "roomId")
  else if negb (truthy (get formData "message_id")) then
    throw (MissingParameterError "formData.message_id")
  else
    let formParams := formParamsOf formData in
    res <- call (client_fetch this)
             (apiV2Endpoint ++ "/rooms/" ++ ToString roomId
                ++ "/messages/unread")
             (mkInit (Some "put") (FormDataHeaders this) (Some formParams)) ;;
    finish res (Some "メッセージ").

Definition putRoomMessage (this : ChatworkClient) (roomId messageId : value)
    (formData : object) : M string :=
  if negb (truthy roomId) then throw (MissingParameterError "roomId")
  else if negb (truthy messageId) then
    throw (MissingParameterError "messageId")
  else if negb (truthy (get formData "body")) then
    throw (MissingParameterError "formData.body")
  else
    let formParams := formParamsOf formData in
    res <- call (client_fetch this)
             (apiV2Endpoint ++ "/rooms/" ++ ToString roomId ++ "/messages/"
                ++ ToString messageId)
             (mkInit (Some "put") (FormDataHeaders this) (Some formParams)) ;;
    finish res (Some "メッセージ").

Definition deleteRoomMessage (this : ChatworkClient) (roomId messageId : value)
  : M string :=
  if negb (truthy roomId) then throw (MissingParameterError "roomId")
  else if negb (truthy messageId) then
    throw (MissingParameterError "messageId")
  else
    res <- call (client_fetch this)
             (apiV2Endpoint ++ "/rooms/" ++ ToString roomId ++ "/messages/"
                ++ ToString messageId)
             (mkInit (Some "delete") (DefaultHeaders this) None) ;;
    finish res (Some "メッセージ").

(** [queryParams.status?.trim().toLowerCase()]. *)
Definition trimLower (what : string) (v : value) : M value :=
  match v with
  | VUndefined | VNull => ret VUndefined
  | VStr s => ret (VStr (toLowerCase (trim s)))
  | _ => throw (notAFunction (what ++ ".trim"))
  end.

Definition getRoomTasks (this : ChatworkClient) (roomId : value)
    (queryParams : object) : M string :=
  if negb (truthy roomId) then throw (MissingParameterError "roomId")
  else
    status <- trimLower "queryParams.status" (get queryParams "status") ;;
    let queryParams := set queryParams "status" status in
    queryParams <-
      (if negb (isValidTaskStatus (get queryParams "status")) then
         console_write "warn"
           ("Unknown task status " ++ dquote
              ++ ToString (get queryParams "status") ++ dquote
              ++ ", using default (undefined)") ;;
         ret (delete queryParams "status")
       else ret queryParams) ;;
    let queryString := queryStringFromParamsObject (Some queryParams) in
    res <- call (client_fetch this)
             (apiV2Endpoint ++ "/rooms/" ++ ToString roomId ++ "/tasks"
                ++ queryString)
             (mkInit None (DefaultHeaders this) None) ;;
    finish res None.

Definition isDate (v : value) : bool :=
  match v with VDate _ => true | _ => false end.

(** Lines 905-919 of [postRoomTasks]: a string or a number becomes a
    [Date]; any other truthy value that is no [Date] is refused. *)
Definition normalizeLimit (formData : object) : M object :=
  if truthy (get formData "limit") && negb (isDate (get formData "limit"))
  then
    let formData :=
      if ((typeof (get formData "limit") =? "string")
          || (typeof (get formData "limit") =? "number"))%string
      then set formData "limit" (newDate (get formData "limit"))
      else formData in
    if negb (isDate (get formData "limit")) then
      throw (InvalidParameterError "formData.limit"
               (typeof (get formData "limit")) "Dateオブジェクト")
    else ret formData
  else ret formData.

(** Lines 921-936: the default of [limit_type], or its normal form. *)
Definition defaultLimitType (formData : object) : M object :=
  if negb (truthy (get formData "limit_type")) then
    if negb (truthy (get formData "limit")) then
      ret (set formData "limit_type" (VStr "none"))
    else
      match get formData "limit" with
      | VDate tv =>
          if isZero (getSeconds tv) && isZero (getMinutes tv)
             && isZero (getHours tv)
          then ret (set formData "limit_type" (VStr "date"))
          else ret (set formData "limit_type" (VStr "time"))
      | _ => throw (notAFunction "formData.limit.getSeconds")
      end
  else
    match get formData "limit_type" with
    | VStr s => ret (set formData "limit_type" (VStr (toLowerCase (trim s))))
    | _ => throw (notAFunction "formData.limit_type.trim")
    end.

(** Lines 951-956: the limit as Unix seconds. *)
Definition encodeLimit (formData : object) : M object :=
  if truthy (get formData "limit") then
    match get formData "limit" with
    | VDate tv => ret (set formData "limit" (VStr (epochSeconds tv)))
    | _ => throw (notAFunction "formData.limit.getTime")
    end
  else ret formData.

Definition postRoomTasks (this : ChatworkClient) (roomId : value)
    (formData : object) : M string :=
  if negb (truthy roomId) then throw (MissingParameterError "roomId")
  else if negb (truthy (get formData "body")) then
    throw (MissingParameterError "formData.body")
  else if negb (truthy (get formData "to_ids")) then
    throw (MissingParameterError "formData.to_ids")
  else
    formData <- normalizeLimit formData ;;
    formData <- defaultLimitType formData ;;
    if negb (isValidLimitType (get formData "limit_type")) then
      throw (InvalidParameterError "formData.limit_type"
               (ToString (get formData "limit_type"))
               (dquote ++ "none" ++ dquote ++ " または " ++ dquote ++ "date"
                  ++ dquote ++ " または " ++ dquote ++ "time" ++ dquote))
    else
      formData <- joinField formData "to_ids" ;;
      formData <- encodeLimit formData ;;
      let formParams := formParamsOf formData in
      res <- call (client_fetch this)
               (apiV2Endpoint ++ "/rooms/" ++ ToString roomId ++ "/tasks")
               (mkInit (Some "post") (FormDataHeaders this) (Some formParams)) ;;
      finish res None.

(** [FormData.prototype.append]: a blob is a file part, with its own
    name if it is a file and the name blob otherwise; anything else is
    converted to a string. *)
Definition append (fields : list (string * FormDataEntryValue))
    (name : string) (v : value) : list (string * FormDataEntryValue) :=
  (fields ++ [ (name, match v with
                      | VBlob content type (Some filename) =>
                          FileEntry content type filename
                      | VBlob content type None =>
                          FileEntry content type "blob"
                      | _ => TextEntry (ToString v)
                      end) ])%list.

Definition postRoomFiles (this : ChatworkClient) (roomId : value)
    (formData : object) : M string :=
  if negb (truthy roomId) then throw (MissingParameterError "roomId")
  else if negb (truthy (get formData "file")) then
    throw (MissingParameterError "formData.file")
  else
    let formParams := [] in
    let formParams := append formParams "message" (get formData "message") in
    let blob :=
      match get formData "file" with
      | VUint8Array content => VBlob content "" None (* new Blob([file]) *)
      | file => file
      end in
    let formParams := append formParams "file" blob in
    res <- call (client_fetch this)
             (apiV2Endpoint ++ "/rooms/" ++ ToString roomId ++ "/files")
             (mkInit (Some "post") (FormDataHeaders this)
                     (Some (FormData formParams))) ;;
    finish res None.

(** The end of a method that returns nothing:
    [if (!res.ok) throw new ChatworkError(...);]. *)
Definition finishVoid (res : Response) (resourceType : option string)
  : M unit :=
  if negb (ok res) then throw (ChatworkError (status res) resourceType)
  else ret tt.

Definition getMe (this : ChatworkClient) : M string :=
  res <- call (client_fetch this) (apiV2Endpoint ++ "/me")
           (mkInit None (DefaultHeaders this) None) ;;
  finish res None.

Definition getMyStatus (this : ChatworkClient) : M string :=
  res <- call (client_fetch this) (apiV2Endpoint ++ "/my/status")
           (mkInit None (DefaultHeaders this) None) ;;
  finish res None.

(** [None] is a call without the parameter object. *)
Definition getMyTasks (this : ChatworkClient) (queryParams : option object)
  : M string :=
  let queryString := queryStringFromParamsObject queryParams in
  res <- call (client_fetch this) (apiV2Endpoint ++ "/my/tasks" ++ queryString)
           (mkInit None (DefaultHeaders this) None) ;;
  finish res None.

Definition getContacts (this : ChatworkClient) : M string :=
  res <- call (client_fetch this) (apiV2Endpoint ++ "/contacts")
           (mkInit None (DefaultHeaders this) None) ;;
  finish res None.

Definition getRooms (this : ChatworkClient) : M string :=
  res <- call (client_fetch this) (apiV2Endpoint ++ "/rooms")
           (mkInit None (DefaultHeaders this) None) ;;
  finish res None.

Definition getRoom (this : ChatworkClient) (roomId : value) : M string :=
  if negb (truthy roomId) then throw (MissingParameterError "roomId")
  else
    res <- call (client_fetch this)
             (apiV2Endpoint ++ "/rooms/" ++ ToString roomId)
             (mkInit None (DefaultHeaders this) None) ;;
    finish res None.

Definition putRoom (this : ChatworkClient) (roomId : value)
    (formData : object) : M string :=
  if negb (truthy roomId) then throw (MissingParameterError "roomId")
  else
    let formParams := formParamsOf formData in
    res <- call (client_fetch this)
             (apiV2Endpoint ++ "/rooms/" ++ ToString roomId)
             (mkInit (Some "put") (FormDataHeaders this) (Some formParams)) ;;
    finish res None.

Definition deleteRooms (this : ChatworkClient) (roomId : value)
    (formData : object) : M unit :=
  if negb (truthy roomId) then throw (MissingParameterError "roomId")
  else if negb (truthy (get formData "action_type")) then
    throw (MissingParameterError "formData.action_type")
  else
    let formParams := formParamsOf formData in
    res <- call (client_fetch this)
             (apiV2Endpoint ++ "/rooms/" ++ ToString roomId)
             (mkInit (Some "delete") (FormDataHeaders this)
                     (Some formParams)) ;;
    finishVoid res None.

Definition getRoomMembers (this : ChatworkClient) (roomId : value)
  : M string :=
  if negb (truthy roomId) then throw (MissingParameterError "roomId")
  else
    res <- call (client_fetch this)
             (apiV2Endpoint ++ "/rooms/" ++ ToString roomId ++ "/members")
             (mkInit None (DefaultHeaders this) None) ;;
    finish res None.

Definition putRoomMembers (this : ChatworkClient) (roomId : value)
    (formData : object) : M string :=
  if negb (truthy roomId) then throw (MissingParameterError "roomId")
  else if negb (truthy (get formData "members_admin_ids")) then
    throw (MissingParameterError "formData.members_admin_ids")
  else
    formData <- joinField formData "members_admin_ids" ;;
    formData <- joinField formData "members_member_ids" ;;
    formData <- joinField formData "members_readonly_ids" ;;
    let formParams := formParamsOf formData in
    res <- call (client_fetch this)
             (apiV2Endpoint ++ "/rooms/" ++ ToString roomId ++ "/members")
             (mkInit (Some "put") (FormDataHeaders this) (Some formParams)) ;;
    finish res None.

Definition getRoomMessage (this : ChatworkClient) (roomId messageId : value)
  : M string :=
  if negb (truthy roomId) then throw (MissingParameterError "roomId")
  else if negb (truthy messageId) then
    throw (MissingParameterError "messageId")
  else
    res <- call (client_fetch this)
             (apiV2Endpoint ++ "/rooms/" ++ ToString roomId ++ "/messages/"
                ++ ToString messageId)
             (mkInit None (DefaultHeaders this) None) ;;
    finish res (Some "メッセージ").

Definition getRoomTask (this : ChatworkClient) (roomId taskId : value)
  : M string :=
  if negb (truthy roomId) then throw (MissingParameterError "roomId")
  else if negb (truthy taskId) then throw (MissingParameterError "taskId")
  else
    res <- call (client_fetch this)
             (apiV2Endpoint ++ "/rooms/" ++ ToString roomId ++ "/tasks/"
                ++ ToString taskId)
             (mkInit None (DefaultHeaders this) None) ;;
    finish res (Some "タスク").

Definition putRoomTaskStatus (this : ChatworkClient) (roomId taskId : value)
    (formData : object) : M string :=
  if negb (truthy roomId) then throw (MissingParameterError "roomId")
  else if negb (truthy taskId) then throw (MissingParameterError "taskId")
  else
    body <- trimLower "formData.body" (get formData "body") ;;
    let formData := set formData "body" body in
    if negb (truthy (get formData "body")) then
      throw (MissingParameterError "formData.body")
    else if negb (isValidTaskStatus (get formData "body")) then
      throw (InvalidParameterError "formData.body"
               (ToString (get formData "body"))
               (dquote ++ "done" ++ dquote ++ " または " ++ dquote ++ "open"
                  ++ dquote))
    else
      let formParams := formParamsOf formData in
      res <- call (client_fetch this)
               (apiV2Endpoint ++ "/rooms/" ++ ToString roomId ++ "/tasks/"
                  ++ ToString taskId ++ "/status")
               (mkInit (Some "put") (FormDataHeaders this)
                       (Some formParams)) ;;
      finish res (Some "タスク").

(** [None] is a call without the parameter object. *)
Definition getRoomFiles (this : ChatworkClient) (roomId : value)
    (queryParams : option object) : M string :=
  if negb (truthy roomId) then throw (MissingParameterError "roomId")
  else
    let queryString := queryStringFromParamsObject queryParams in
    res <- call (client_fetch this)
             (apiV2Endpoint ++ "/rooms/" ++ ToString roomId ++ "/files"
                ++ queryString)
             (mkInit None (DefaultHeaders this) None) ;;
    finish res None.

Definition getRoomFile (this : ChatworkClient) (roomId fileId : value)
    (queryParams : object) : M string :=
  if negb (truthy roomId) then throw (MissingParameterError "roomId")
  else if negb (truthy fileId) then throw (MissingParameterError "fileId")
  else
    let queryParams :=
      match get queryParams "create_download_url" with
      | VUndefined => queryParams
      | create_download_url =>
          set queryParams "create_download_url"
            (VStr (if truthy create_download_url then "1" else "0"))
      end in
    let queryString := queryStringFromParamsObject (Some queryParams) in
    res <- call (client_fetch this)
             (apiV2Endpoint ++ "/rooms/" ++ ToString roomId ++ "/files/"
                ++ ToString fileId ++ queryString)
             (mkInit None (DefaultHeaders this) None) ;;
    finish res (Some "ファイル").

Definition getRoomLink (this : ChatworkClient) (roomId : value) : M string :=
  if negb (truthy roomId) then throw (MissingParameterError "roomId")
  else
    res <- call (client_fetch this)
             (apiV2Endpoint ++ "/rooms/" ++ ToString roomId ++ "/link")
             (mkInit None (DefaultHeaders this) None) ;;
    finish res None.

Definition postRoomLink (this : ChatworkClient) (roomId : value)
    (formData : object) : M string :=
  if negb (truthy roomId) then throw (MissingParameterError "roomId")
  else
    let formData :=
      set formData "need_acceptance"
        (VStr (if truthy (get formData "need_acceptance") then "1" else "0")) in
    let formParams := formParamsOf formData in
    res <- call (client_fetch this)
             (apiV2Endpoint ++ "/rooms/" ++ ToString roomId ++ "/link")
             (mkInit (Some "post") (FormDataHeaders this) (Some formParams)) ;;
    finish res None.

Definition putRoomLink (this : ChatworkClient) (roomId : value)
    (formData : object) : M string :=
  if negb (truthy roomId) then throw (MissingParameterError "roomId")
  else
    let formData :=
      set formData "need_acceptance"
        (VStr (if truthy (get formData "need_acceptance") then "1" else "0")) in
    let formParams := formParamsOf formData in
    res <- call (client_fetch this)
             (apiV2Endpoint ++ "/rooms/" ++ ToString roomId ++ "/link")
             (mkInit (Some "put") (FormDataHeaders this) (Some formParams)) ;;
    finish res None.

Definition deleteRoomLink (this : ChatworkClient) (roomId : value)
  : M string :=
  if negb (truthy roomId) then throw (MissingParameterError "roomId")
  else
    res <- call (client_fetch this)
             (apiV2Endpoint ++ "/rooms/" ++ ToString roomId ++ "/link")
             (mkInit (Some "delete") (DefaultHeaders this) None) ;;
    finish res None.

Definition getIncomingRequests (this : ChatworkClient) : M string :=
  res <- call (client_fetch this) (apiV2Endpoint ++ "/incoming_requests")
           (mkInit None (DefaultHeaders this) None) ;;
  finish res None.

Definition putIncomingRequests (this : ChatworkClient) (requestId : value)
  : M string :=
  if negb (truthy requestId) then throw (MissingParameterError "requestId")
  else
    res <- call (client_fetch this)
             (apiV2Endpoint ++ "/incoming_requests/" ++ ToString requestId)
             (mkInit (Some "put") (DefaultHeaders this) None) ;;
    finish res (Some "コンタクト").

Definition deleteIncomingRequest (this : ChatworkClient) (requestId : value)
  : M unit :=
  if negb (truthy requestId) then throw (MissingParameterError "requestId")
  else
    res <- call (client_fetch this)
             (apiV2Endpoint ++ "/incoming_requests/" ++ ToString requestId)
             (mkInit (Some "delete") (DefaultHeaders this) None) ;;
    finishVoid res (Some "コンタクト").

(** A call of a public method of a client, with its arguments. *)
Inductive Operation : Type :=
| GetMe
| GetMyStatus
| GetMyTasks (queryParams : option object)
| GetContacts
| GetRooms
| PostRooms (formData : object)
| GetRoom (roomId : value)
| PutRoom (roomId : value) (formData : object)
| DeleteRooms (roomId : value) (formData : object)
| GetRoomMembers (roomId : value)
| PutRoomMembers (roomId : value) (formData : object)
| GetRoomMessages (roomId : value) (queryParams : object)
| PostRoomMessage (roomId : value) (formData : object)
| PutRoomMessagesRead (roomId : value) (formData : object)
| PutRoomMessagesUnread (roomId : value) (formData : object)
| GetRoomMessage (roomId messageId : value)
| PutRoomMessage (roomId messageId : value) (formData : object)
| DeleteRoomMessage (roomId messageId : value)
| GetRoomTasks (roomId : value) (queryParams : object)
| PostRoomTasks (roomId : value) (formData : object)
| GetRoomTask (roomId taskId : value)
| PutRoomTaskStatus (roomId taskId : value) (formData : object)
| GetRoomFiles (roomId : value) (queryParams : option object)
| PostRoomFiles (roomId : value) (formData : object)
| GetRoomFile (roomId fileId : value) (queryParams : object)
| GetRoomLink (roomId : value)
| PostRoomLink (roomId : value) (formData : object)
| PutRoomLink (roomId : value) (formData : object)
| DeleteRoomLink (roomId : value)
| GetIncomingRequests
| PutIncomingRequests (requestId : value)
| DeleteIncomingRequest (requestId : value).

(** The result of a method as an optional decoded body: methods that
    return nothing give [None]. *)
Definition decoded (m : M string) : M (option string) :=
  x <- m ;; ret (Some x).

Definition nothing (m : M unit) : M (option string) :=
  x <- m ;; ret None.

(** The method an operation calls. *)
Definition perform (this : ChatworkClient) (op : Operation)
  : M (option string) :=
  match op with
  | GetMe => decoded (getMe this)
  | GetMyStatus => decoded (getMyStatus this)
  | GetMyTasks queryParams => decoded (getMyTasks this queryParams)
  | GetContacts => decoded (getContacts this)
  | GetRooms => decoded (getRooms this)
  | PostRooms formData => decoded (postRooms this formData)
  | GetRoom roomId => decoded (getRoom this roomId)
  | PutRoom roomId formData => decoded (putRoom this roomId formData)
  | DeleteRooms roomId formData => nothing (deleteRooms this roomId formData)
  | GetRoomMembers roomId => decoded (getRoomMembers this roomId)
  | PutRoomMembers roomId formData =>
      decoded (putRoomMembers this roomId formData)
  | GetRoomMessages roomId queryParams =>
      decoded (getRoomMessages this roomId queryParams)
  | PostRoomMessage roomId formData =>
      decoded (postRoomMessage this roomId formData)
  | PutRoomMessagesRead roomId formData =>
      decoded (putRoomMessagesRead this roomId formData)
  | PutRoomMessagesUnread roomId formData =>
      decoded (putRoomMessagesUnread this roomId formData)
  | GetRoomMessage roomId messageId =>
      decoded (getRoomMessage this roomId messageId)
  | PutRoomMessage roomId messageId formData =>
      decoded (putRoomMessage this roomId messageId formData)
  | DeleteRoomMessage roomId messageId =>
      decoded (deleteRoomMessage this roomId messageId)
  | GetRoomTasks roomId queryParams =>
      decoded (getRoomTasks this roomId queryParams)
  | PostRoomTasks roomId formData =>
      decoded (postRoomTasks this roomId formData)
  | GetRoomTask roomId taskId => decoded (getRoomTask this roomId taskId)
  | PutRoomTaskStatus roomId taskId formData =>
      decoded (putRoomTaskStatus this roomId taskId formData)
  | GetRoomFiles roomId queryParams =>
      decoded (getRoomFiles this roomId queryParams)
  | PostRoomFiles roomId formData =>
      decoded (postRoomFiles this roomId formData)
  | GetRoomFile roomId fileId queryParams =>
      decoded (getRoomFile this roomId fileId queryParams)
  | GetRoomLink roomId => decoded (getRoomLink this roomId)
  | PostRoomLink roomId formData => decoded (postRoomLink this roomId formData)
  | PutRoomLink roomId formData => decoded (putRoomLink this roomId formData)
  | DeleteRoomLink roomId => decoded (deleteRoomLink this roomId)
  | GetIncomingRequests => decoded (getIncomingRequests this)
  | PutIncomingRequests requestId =>
      decoded (putIncomingRequests this requestId)
  | DeleteIncomingRequest requestId =>
      nothing (deleteIncomingRequest this requestId)
  end.

End Client.

(* ===================================================================== *)
(** ** A concrete engine and runtime, for running the model *)
(* ===================================================================== *)

(** An engine to run the model on ASCII inputs: it is in the UTC time
    zone, its parser knows one date string, and its case mapping is the
    one of ASCII. *)
Definition utcEngine : JsEngine := {|
  Date_parse := fun s =>
    if (s =? "1970-01-02T00:00:00.000Z")%string then Some 86400000 else None;
  LocalTZA := fun _ => 0;
  Date_toString := fun t => "Date(" ++ decimal t ++ ")";
  toLowerCase := lowerCaseAscii;
  toLowerCase_ascii := fun _ _ => eq_refl
|}.

(** A transport that answers every call with the same status; [ok] is
    set as [fetch] sets it, for the statuses 200 to 299. *)
Definition answering (code : Z) : Fetch :=
  fun _ _ => inr (mkResponse ((200 <=? code) && (code <=? 299)) code (inr "{}")).

(** A transport without network: every call is rejected. *)
Definition offline : Fetch :=
  fun _ _ => inl (mkRejection "TypeError" "Failed to fetch").

(** A transport that answers 200 with a body that is no JSON. *)
Definition garbled : Fetch :=
  fun _ _ =>
    inr (mkResponse true 200
           (inl (mkRejection "SyntaxError" "Unexpected end of JSON input"))).

(** A runtime without environment variables and without a [.env] file. *)
Definition bareWorld : world := mkWorld [] None (answering 200) [] [].

(* ===================================================================== *)
(** ** Specification-side definitions *)
(* ===================================================================== *)

(** The credential chain in the words of the specification: the first
    source that holds a non-empty string wins. *)
Fixpoint firstNonEmpty (sources : list (option string)) : option string :=
  match sources with
  | [] => None
  | Some t :: rest => if (t =? "")%string then firstNonEmpty rest else Some t
  | None :: rest => firstNonEmpty rest
  end.

(** A limit of the declared type [Date | number | string] that is given
    (truthy), together with the time value of the [Date] that lines
    905-911 leave in its place: a [Date] is kept, and [new Date] reads a
    number as milliseconds since the epoch and parses a string. *)
Inductive limitDate {engine : JsEngine} : value -> option Z -> Prop :=
| limit_of_Date tv : limitDate (VDate tv) tv
| limit_of_number n :
    truthy (VNum n) = true -> limitDate (VNum n) (TimeClip n)
| limit_of_string s :
    s <> "" -> limitDate (VStr s) (Date_parse s).

(** The time of day of a time value is midnight, local time. *)
Definition midnight {engine : JsEngine} (tv : option Z) : bool :=
  isZero (getHours tv) && isZero (getMinutes tv) && isZero (getSeconds tv).

(** The one call an operation adds to the calls made before it. *)
Definition oneCall {A : Type} (r : (JsError + A) * world) (before : world)
    (url : string) (init : RequestInit) : Prop :=
  calls (snd r) = (calls before ++ [(url, init)])%list.

(** An operation that made no call. *)
Definition noCall {A : Type} (r : (JsError + A) * world) (before : world)
  : Prop :=
  calls (snd r) = calls before.

(** The object [joinField] leaves, and the world it leaves. *)
Definition joinedField {engine : JsEngine} (formData : object) (k : string)
  : object :=
  match get formData k with
  | VArr l => set formData k (VStr (join l ","))
  | _ => formData
  end.

Definition afterJoin (formData : object) (k : string) (w : world) : world :=
  match get formData k with
  | VArr _ =>
      mkWorld (env w) (dotenv w) (globalFetch w)
        (console w
           ++ [("log", "Joining " ++ k ++ " into comma-separated string...")])
        (calls w)
  | _ => w
  end.

(** An identifier of the declared type [string | number]. *)
Definition isId (x : value) : Prop :=
  match x with
  | VStr _ | VNum _ => True
  | _ => False
  end.

(** The text of the set of limit types in the error message. *)
Definition expectedLimitTypes : string :=
  dquote ++ "none" ++ dquote ++ " または " ++ dquote ++ "date" ++ dquote
    ++ " または " ++ dquote ++ "time" ++ dquote.

(** A limit read as the documentation of [postRoomTasks] describes it,
    and the time value it stands for: a number is a Unix time in
    seconds. *)
Inductive limitInstant {engine : JsEngine} : value -> option Z -> Prop :=
| instant_of_Date tv : limitInstant (VDate tv) tv
| instant_of_seconds n :
    n <> 0 -> limitInstant (VNum (NInt n)) (TimeClip (NInt (n * 1000)))
| instant_of_string s :
    s <> "" -> limitInstant (VStr s) (Date_parse s).

(** What the answer to the call becomes at the end of a method: the
    reason of a rejected call; for a response that is not ok, the error of
    its status; for an ok response, the decoded body or the reason the
    decoding was rejected with. *)
Definition outcome (answer : Rejection + Response)
    (resourceType : option string) : JsError + string :=
  match answer with
  | inl reason => inl (rejected reason)
  | inr res =>
      if ok res then
        match json res with
        | inl reason => inl (rejected reason)
        | inr decoded => inr decoded
        end
      else inl (ChatworkError (status res) resourceType)
  end.

(** The same for a method that returns nothing, which does not read the
    body. *)
Definition outcomeVoid (answer : Rejection + Response)
    (resourceType : option string) : JsError + unit :=
  match answer with
  | inl reason => inl (rejected reason)
  | inr res =>
      if ok res then inr tt
      else inl (ChatworkError (status res) resourceType)
  end.

(** The result of a method under [decoded] and [nothing]. *)
Definition mapResult {A B : Type} (f : A -> B) (r : JsError + A)
  : JsError + B :=
  match r with
  | inl e => inl e
  | inr a => inr (f a)
  end.

(** The message of the construction error of [create]. *)
Definition noTokenMessage : string :=
  "新しいChatworkClientを初期化するときは、Chatwork APIトークンを渡すか、CW_API_TOKEN環境変数を定義する必要があります。".

(** Two worlds that differ at most by what was written to the console. *)
Definition quiet (w w' : world) : Prop :=
  env w' = env w /\ dotenv w' = dotenv w /\ globalFetch w' = globalFetch w
  /\ calls w' = calls w.

(** The shape of a request of the client: an address under the endpoint;
    without a body, the default headers; with a body, the form headers
    and one of the methods post, put and delete. *)
Definition wellFormed (this : ChatworkClient) (url : string)
    (init : RequestInit) : Prop :=
  (exists path, url = apiV2Endpoint ++ "/" ++ path)
  /\ match body init with
     | None => headers init = DefaultHeaders this
     | Some _ =>
         headers init = FormDataHeaders this
         /\ In (method init) [Some "post"; Some "put"; Some "delete"]
     end.

(** The errors a method can throw before its call: the three the code of
    the client raises on its arguments. *)
Definition beforeCall (c : ErrorClass) : bool :=
  match c with
  | TypeError | MissingParameterErrorClass | InvalidParameterErrorClass => true
  | _ => false
  end.

(** The same without the MissingParameter error. *)
Definition afterChecks (c : ErrorClass) : bool :=
  match c with
  | TypeError | InvalidParameterErrorClass => true
  | _ => false
  end.

(** The two ways a method ends: it throws before any call an error of an
    allowed class, or it makes one well-formed call and ends as [ending]
    tells for the answer to that call. *)
Inductive Run {A : Type} (allowed : ErrorClass -> bool)
    (ending : Rejection + Response -> option string -> JsError + A)
    (this : ChatworkClient) (w : world) : (JsError + A) * world -> Prop :=
| Run_thrown (e : JsError) (w' : world) :
    allowed (class e) = true -> quiet w w' ->
    Run allowed ending this w (inl e, w')
| Run_called (url : string) (init : RequestInit)
    (resourceType : option string) (w' : world) :
    quiet w w' -> wellFormed this url init ->
    Run allowed ending this w
      (ending (client_fetch this url init) resourceType,
       mkWorld (env w') (dotenv w') (globalFetch w') (console w')
               (calls w' ++ [(url, init)])).

(** A step that makes no call and throws errors of an allowed class
    only. *)
Definition Pre {A : Type} (allowed : ErrorClass -> bool) (m : M A) : Prop :=
  forall w : world,
    match m w with
    | (inl e, w') => allowed (class e) = true /\ quiet w w'
    | (inr _, w') => quiet w w'
    end.

(** The operations whose method returns nothing. *)
Definition returnsNothing (op : Operation) : bool :=
  match op with
  | DeleteRooms _ _ | DeleteIncomingRequest _ => true
  | _ => false
  end.

(** How an operation ends for the answer to its call. *)
Definition endingOf (op : Operation) (answer : Rejection + Response)
    (resourceType : option string) : JsError + option string :=
  if returnsNothing op
  then mapResult (fun _ => None) (outcomeVoid answer resourceType)
  else mapResult Some (outcome answer resourceType).

(** The parameters an operation checks for presence as they are passed,
    in the order of its checks: the name the error gives each of them,
    and its value in the call. *)
Definition checkedParameters (op : Operation) : list (string * value) :=
  match op with
  | GetMe | GetMyStatus | GetMyTasks _ | GetContacts | GetRooms
  | GetIncomingRequests => []
  | PostRooms formData =>
      [ ("formData.name", get formData "name")
      ; ("formData.members_admin_ids", get formData "members_admin_ids") ]
  | GetRoom roomId | PutRoom roomId _ | GetRoomMembers roomId
  | GetRoomMessages roomId _ | PutRoomMessagesRead roomId _
  | GetRoomTasks roomId _ | GetRoomFiles roomId _ | GetRoomLink roomId
  | PostRoomLink roomId _ | PutRoomLink roomId _ | DeleteRoomLink roomId =>
      [ ("roomId", roomId) ]
  | DeleteRooms roomId formData =>
      [ ("roomId", roomId)
      ; ("formData.action_type", get formData "action_type") ]
  | PutRoomMembers roomId formData =>
      [ ("roomId", roomId)
      ; ("formData.members_admin_ids", get formData "members_admin_ids") ]
  | PostRoomMessage roomId formData =>
      [ ("roomId", roomId); ("formData.body", get formData "body") ]
  | PutRoomMessagesUnread roomId formData =>
      [ ("roomId", roomId)
      ; ("formData.message_id", get formData "message_id") ]
  | GetRoomMessage roomId messageId | DeleteRoomMessage roomId messageId =>
      [ ("roomId", roomId); ("messageId", messageId) ]
  | PutRoomMessage roomId messageId formData =>
      [ ("roomId", roomId); ("messageId", messageId)
      ; ("formData.body", get formData "body") ]
  | PostRoomTasks roomId formData =>
      [ ("roomId", roomId); ("formData.body", get formData "body")
      ; ("formData.to_ids", get formData "to_ids") ]
  | GetRoomTask roomId taskId | PutRoomTaskStatus roomId taskId _ =>
      [ ("roomId", roomId); ("taskId", taskId) ]
  | PostRoomFiles roomId formData =>
      [ ("roomId", roomId); ("formData.file", get formData "file") ]
  | GetRoomFile roomId fileId _ =>
      [ ("roomId", roomId); ("fileId", fileId) ]
  | PutIncomingRequests requestId | DeleteIncomingRequest requestId =>
      [ ("requestId", requestId) ]
  end.

(** The name of the first parameter of a list of checks whose value is
    falsy. *)
Fixpoint firstMissing (checks : list (string * value)) : option string :=
  match checks with
  | [] => None
  | (name, v) :: rest => if truthy v then firstMissing rest else Some name
  end.

(** The one parameter that is checked after it is normalized: the body of
    [putRoomTaskStatus] counts as missing when it is undefined, null, or a
    string that is empty once trimmed and lower-cased. *)
Definition statusBodyMissing {engine : JsEngine} (op : Operation) : bool :=
  match op with
  | PutRoomTaskStatus _ _ formData =>
      match get formData "body" with
      | VUndefined | VNull => true
      | VStr s => (toLowerCase (trim s) =? "")%string
      | _ => false
      end
  | _ => false
  end.

(** The status code written in the name of an error, if any: the decimal
    numeral after the words of an unknown error, or the status of one of
    the five named errors. *)
Definition statusOfName (n : string) : option Z :=
  if (n =? "IncorrectParametersError")%string then Some 400
  else if (n =? "UnauthorizedError")%string then Some 401
  else if (n =? "ForbiddenError")%string then Some 403
  else if (n =? "NotFoundError")%string then Some 404
  else if (n =? "RateLimitError")%string then Some 429
  else
    match dropPrefix "UnknownChatworkError " n with
    | Some digits => option_map Z.of_int (NilZero.int_of_string digits)
    | None => None
    end.


(* ===================================================================== *)
(** ** Objects and pair lists *)
(* ===================================================================== *)

Lemma get_set_same (o : object) (k : string) (v : value) :
  get (set o k v) k = v.
Proof.
  induction o as [|[k' v'] o IH]; simpl.
  - now rewrite String.eqb_refl.
  - destruct (String.eqb_spec k' k) as [->|Hne]; simpl.
    + now rewrite String.eqb_refl.
    + destruct (String.eqb_spec k' k); [contradiction | exact IH].
Qed.

Lemma get_set_other (o : object) (k k' : string) (v : value) :
  k <> k' -> get (set o k v) k' = get o k'.
Proof.
  intros Hne. induction o as [|[k0 v0] o IH]; simpl.
  - destruct (String.eqb_spec k k'); [contradiction | reflexivity].
  - destruct (String.eqb_spec k0 k) as [->|Hk]; simpl.
    + destruct (String.eqb_spec k k'); [contradiction | reflexivity].
    + destruct (String.eqb_spec k0 k'); [reflexivity | exact IH].
Qed.

Lemma delete_set_same (o : object) (k : string) (v : value) :
  delete (set o k v) k = delete o k.
Proof.
  induction o as [|[k' v'] o IH]; simpl.
  - now rewrite String.eqb_refl.
  - destruct (String.eqb_spec k' k) as [->|Hne]; simpl.
    + now rewrite String.eqb_refl.
    + destruct (String.eqb_spec k' k); [contradiction | now rewrite IH].
Qed.

Lemma get_delete_same (o : object) (k : string) :
  get (delete o k) k = VUndefined.
Proof.
  induction o as [|[k' v'] o IH]; simpl; [reflexivity|].
  destruct (String.eqb_spec k' k) as [->|Hne]; simpl; [exact IH|].
  destruct (String.eqb_spec k' k); [contradiction | exact IH].
Qed.

Lemma get_delete_other (o : object) (k k' : string) :
  k <> k' -> get (delete o k) k' = get o k'.
Proof.
  intros Hk. induction o as [|[k0 v0] o IH]; [reflexivity|].
  cbn [delete]. destruct (String.eqb_spec k0 k) as [->|Hne].
  - cbn [get]. destruct (String.eqb_spec k k'); [contradiction | exact IH].
  - cbn [get]. destruct (String.eqb_spec k0 k'); [reflexivity | exact IH].
Qed.

(** [delete o.k] removes the property [k] and nothing else. *)
Lemma delete_filter (o : object) (k : string) :
  delete o k = filter (fun p => negb (fst p =? k)%string) o.
Proof.
  induction o as [|[k' v'] o IH]; [reflexivity|].
  cbn [delete filter fst]. destruct (k' =? k)%string; cbn [negb];
    now rewrite IH.
Qed.

Section PairLists.
Context {engine : JsEngine}.

(** The lower-case form of an ASCII string is the same in every engine. *)
Lemma toLowerCase_of_ascii (s t : string) :
  isAscii s = true -> lowerCaseAscii s = t -> toLowerCase s = t.
Proof. intros Hascii <-. now apply toLowerCase_ascii. Qed.

Lemma formPairs_set_same (o : object) (k : string) (v : value) :
  lookup (formPairs (set o k v)) k = Some (snd (entryValuesAsStrings (k, v))).
Proof.
  unfold formPairs, entries.
  induction o as [|[k' v'] o IH]; simpl.
  - now rewrite String.eqb_refl.
  - destruct (String.eqb_spec k' k) as [->|Hne]; simpl.
    + now rewrite String.eqb_refl.
    + destruct (String.eqb_spec k' k); [contradiction | exact IH].
Qed.

Lemma formPairs_set_other (o : object) (k k' : string) (v : value) :
  k <> k' -> lookup (formPairs (set o k v)) k' = lookup (formPairs o) k'.
Proof.
  intros Hne. unfold formPairs, entries.
  induction o as [|[k0 v0] o IH]; simpl.
  - destruct (String.eqb_spec k k'); [contradiction | reflexivity].
  - destruct (String.eqb_spec k0 k) as [->|Hk]; simpl.
    + destruct (String.eqb_spec k k'); [contradiction | reflexivity].
    + destruct (String.eqb_spec k0 k'); [reflexivity | exact IH].
Qed.

(** After [o.k = v] with a defined [v], the query parameters hold [k=v]. *)
Lemma definedParams_set (o : object) (k : string) (s : string) :
  In (k ++ "=" ++ s) (definedParams (set o k (VStr s))).
Proof.
  induction o as [|[k' v'] o IH]; simpl.
  - now left.
  - destruct (String.eqb_spec k' k) as [->|Hne]; simpl.
    + now left.
    + destruct v'; simpl; auto.
Qed.

End PairLists.

(* ===================================================================== *)
(** ** The error classifier *)
(* ===================================================================== *)

(** C5: the classifier is a total function of the status code and the
    optional resource label.  The statuses 400, 401, 403, 404 and 429 give
    the errors named IncorrectParametersError, UnauthorizedError,
    ForbiddenError, NotFoundError and RateLimitError; the message of
    NotFoundError starts with the supplied label, or with the generic one
    when no label is passed; every other status gives the error whose name
    is "UnknownChatworkError " followed by the decimal status code. *)
Theorem ChatworkError_classification (resourceType : option string) :
  let label := match resourceType with Some r => r | None => "リソース" end in
  ChatworkError 400 resourceType
    = mkError ChatworkErrorClass "IncorrectParametersError"
        "リクエストまたはアクセストークンのパラメーターが不足している、および不正な値が指定されている"
  /\ ChatworkError 401 resourceType
    = mkError ChatworkErrorClass "UnauthorizedError" "認証に失敗した"
  /\ ChatworkError 403 resourceType
    = mkError ChatworkErrorClass "ForbiddenError"
        "アクセストークンのスコープが不足している"
  /\ ChatworkError 404 resourceType
    = mkError ChatworkErrorClass "NotFoundError" (label ++ "が存在しない")
  /\ ChatworkError 429 resourceType
    = mkError ChatworkErrorClass "RateLimitError" "APIの利用回数制限を超過した"
  /\ (forall statusCode : Z,
        ~ In statusCode [400; 401; 403; 404; 429] ->
        ChatworkError statusCode resourceType
        = mkError ChatworkErrorClass
            ("UnknownChatworkError " ++ decimal statusCode) "不明なエラー").
Proof.
  cbv zeta. repeat split; try reflexivity.
  intros statusCode Hother. unfold ChatworkError.
  destruct (Z.eqb_spec statusCode 400) as [->|_]; [exfalso; apply Hother; simpl; tauto|].
  destruct (Z.eqb_spec statusCode 401) as [->|_]; [exfalso; apply Hother; simpl; tauto|].
  destruct (Z.eqb_spec statusCode 403) as [->|_]; [exfalso; apply Hother; simpl; tauto|].
  destruct (Z.eqb_spec statusCode 404) as [->|_]; [exfalso; apply Hother; simpl; tauto|].
  destruct (Z.eqb_spec statusCode 429) as [->|_]; [exfalso; apply Hother; simpl; tauto|].
  reflexivity.
Qed.

Lemma ChatworkError_classification_witness :
  ChatworkError 404 (Some "タスク")
    = mkError ChatworkErrorClass "NotFoundError" "タスクが存在しない"
  /\ ChatworkError 404 None
    = mkError ChatworkErrorClass "NotFoundError" "リソースが存在しない"
  /\ ChatworkError 500 None
    = mkError ChatworkErrorClass "UnknownChatworkError 500" "不明なエラー".
Proof.
  split; [exact (proj1 (proj2 (proj2 (proj2
                   (ChatworkError_classification (Some "タスク"))))))|].
  split; [exact (proj1 (proj2 (proj2 (proj2
                   (ChatworkError_classification None)))))|].
  apply (proj2 (proj2 (proj2 (proj2 (proj2
           (ChatworkError_classification None))))) 500).
  simpl. intros [H|[H|[H|[H|[H|[]]]]]]; discriminate H.
Defined.

(* ===================================================================== *)
(** ** The credential resolver *)
(* ===================================================================== *)

Lemma firstNonEmpty_noString (s : option string) (rest : list (option string)) :
  firstNonEmpty (s :: rest)
  = if noString s then firstNonEmpty rest else s.
Proof.
  destruct s as [t|]; simpl; [|reflexivity].
  destruct (t =? "")%string; reflexivity.
Qed.

(** C7: [create] resolves the token by the ordered chain: the explicit
    token, else the environment variable CW_API_TOKEN, else the entry of
    that name in the .env file; the first non-empty source wins, and
    the client is built from it with the transport of the options.  When
    no source holds a non-empty token it throws the construction error.
    In particular a call without argument, with the variable unset and no
    .env file, throws.  In no case is a call made through a transport. *)
Theorem create_resolves_token (options : option ChatworkClientOptions)
    (w : world) :
  let given :=
    match options with
    | Some o => o
    | None => mkOptions "" (globalFetch w)
    end in
  let fromEnv := lookup (env w) "CW_API_TOKEN" in
  let fromFile :=
    lookup (match dotenv w with Some kv => kv | None => [] end)
           "CW_API_TOKEN" in
  let r := create options w in
  noCall r w
  /\ fst r
     = match firstNonEmpty [Some (token given); fromEnv; fromFile] with
       | Some t => inr (constructor (mkOptions t (fetchImpl given)))
       | None => inl (Error noTokenMessage)
       end
  /\ (options = None -> fromEnv = None -> dotenv w = None ->
      fst r = inl (Error noTokenMessage)).
Proof.
  cbv zeta.
  assert (Hmain :
    noCall (create options w) w
    /\ fst (create options w)
       = match firstNonEmpty
                 [Some (token match options with
                               | Some o => o
                               | None => mkOptions "" (globalFetch w)
                               end);
                  lookup (env w) "CW_API_TOKEN";
                  lookup (match dotenv w with Some kv => kv | None => [] end)
                         "CW_API_TOKEN"] with
         | Some t =>
             inr (constructor
                    (mkOptions t
                       (fetchImpl match options with
                                  | Some o => o
                                  | None => mkOptions "" (globalFetch w)
                                  end)))
         | None => inl (Error noTokenMessage)
         end).
  { rewrite !firstNonEmpty_noString.
    change (noString (Some (token ?o))) with (token o =? "")%string.
    unfold create, noCall. cbn -[noString firstNonEmpty].
    set (fromFile :=
           lookup (match dotenv w with Some kv => kv | None => [] end)
                  "CW_API_TOKEN").
    set (fromEnv := lookup (env w) "CW_API_TOKEN").
    destruct (token _ =? "")%string eqn:Hgiven; cbn -[noString].
    - fold fromEnv. destruct (noString fromEnv) eqn:Henv; cbn -[noString].
      + fold fromFile.
        destruct (noString fromFile) eqn:Hfile; cbn -[noString].
        * split; reflexivity.
        * split; [reflexivity|].
          destruct fromFile; [reflexivity | discriminate Hfile].
      + fold fromEnv. rewrite Henv. cbn -[noString]. split; [reflexivity|].
        destruct fromEnv; [reflexivity | discriminate Henv].
    - split; [reflexivity|].
      now destruct (match options with Some o => o | None => _ end). }
  destruct Hmain as [Hcalls Hfst].
  split; [exact Hcalls|]. split; [exact Hfst|].
  intros -> Henv Hfile. rewrite Hfst, Henv, Hfile. reflexivity.
Qed.

Lemma create_resolves_token_witness :
  fst (create None bareWorld) = inl (Error noTokenMessage).
Proof.
  exact (proj2 (proj2 (create_resolves_token None bareWorld))
           eq_refl eq_refl eq_refl).
Defined.

(* ===================================================================== *)
(** ** Running the end of a method *)
(* ===================================================================== *)

Lemma run_bind {A B : Type} (m : M A) (k : A -> M B) (w : world) :
  (x <- m ;; k x) w
  = match m w with
    | (inl e, w') => (inl e, w')
    | (inr a, w') => k a w'
    end.
Proof. reflexivity. Qed.

Lemma run_finish (res : Response) (resourceType : option string) (w : world) :
  finish res resourceType w = (outcome (inr res) resourceType, w).
Proof.
  unfold finish, outcome. destruct (ok res); [|reflexivity].
  cbn [negb]. now destruct (json res).
Qed.

Lemma run_finishVoid (res : Response) (resourceType : option string)
    (w : world) :
  finishVoid res resourceType w = (outcomeVoid (inr res) resourceType, w).
Proof.
  unfold finishVoid, outcomeVoid. destruct (ok res); reflexivity.
Qed.

(** A call and the end of the method after it: the call is recorded
    whatever its answer, and the answer decides the result. *)
Lemma run_call_finish (f : Fetch) (url : string) (init : RequestInit)
    (resourceType : option string) (w : world) :
  (res <- call f url init ;; finish res resourceType) w
  = (outcome (f url init) resourceType,
     mkWorld (env w) (dotenv w) (globalFetch w) (console w)
             (calls w ++ [(url, init)])).
Proof.
  rewrite run_bind. unfold call.
  destruct (f url init) as [reason|res]; [reflexivity|].
  cbn [await ret Monad_M]. apply run_finish.
Qed.

Lemma run_call_finishVoid (f : Fetch) (url : string) (init : RequestInit)
    (resourceType : option string) (w : world) :
  (res <- call f url init ;; finishVoid res resourceType) w
  = (outcomeVoid (f url init) resourceType,
     mkWorld (env w) (dotenv w) (globalFetch w) (console w)
             (calls w ++ [(url, init)])).
Proof.
  rewrite run_bind. unfold call.
  destruct (f url init) as [reason|res]; [reflexivity|].
  cbn [await ret Monad_M]. apply run_finishVoid.
Qed.

(** What an ok response with a decoded body, and what a response with the
    status 404, becomes. *)
Lemma outcome_ok (answer : Rejection + Response) (res : Response)
    (decoded : string) (resourceType : option string) :
  answer = inr res -> ok res = true -> json res = inr decoded ->
  outcome answer resourceType = inr decoded.
Proof. intros -> Hok Hjson. unfold outcome. now rewrite Hok, Hjson. Qed.

Lemma outcome_404 (answer : Rejection + Response)
    (resourceType : option string) :
  (exists res, answer = inr res /\ ok res = false /\ status res = 404) ->
  outcome answer resourceType = inl (ChatworkError 404 resourceType).
Proof.
  intros (res & -> & Hok & Hstatus). unfold outcome.
  now rewrite Hok, Hstatus.
Qed.

Lemma outcomeVoid_404 (answer : Rejection + Response)
    (resourceType : option string) :
  (exists res, answer = inr res /\ ok res = false /\ status res = 404) ->
  outcomeVoid answer resourceType = inl (ChatworkError 404 resourceType).
Proof.
  intros (res & -> & Hok & Hstatus). unfold outcomeVoid.
  now rewrite Hok, Hstatus.
Qed.

(* ===================================================================== *)
(** ** Query strings *)
(* ===================================================================== *)

Section QueryStrings.
Context {engine : JsEngine}.

Lemma queryString_nonempty (o : object) (p : string) :
  In p (definedParams (entries o)) ->
  queryStringFromParamsObject (Some o)
  = "?" ++ String.concat "&" (definedParams (entries o)).
Proof.
  unfold queryStringFromParamsObject.
  destruct (definedParams (entries o)); [intros [] | reflexivity].
Qed.

(** C10: every request of [getRoomMessages] carries the force key.  The
    flag is "1" for a truthy force and "0" for any falsy one (false,
    undefined, absent, ...): the query string is "?" followed by
    parameters among which force=flag occurs, and for a parameter object
    with no other property than force the URL ends with ?force=flag, so
    with ?force=0 for a falsy force. *)
Theorem getRoomMessages_sends_force (this : ChatworkClient) (roomId : value)
    (queryParams : object) (w : world) :
  truthy roomId = true ->
  let flag := if truthy (get queryParams "force") then "1" else "0" in
  let r := getRoomMessages this roomId queryParams w in
  (exists params,
      In ("force=" ++ flag) params
      /\ oneCall r w
           (apiV2Endpoint ++ "/rooms/" ++ ToString roomId ++ "/messages"
              ++ "?" ++ String.concat "&" params)
           (mkInit None (DefaultHeaders this) None))
  /\ (queryParams = [] \/ (exists v, queryParams = [("force", v)]) ->
      oneCall r w
        (apiV2Endpoint ++ "/rooms/" ++ ToString roomId ++ "/messages"
           ++ "?force=" ++ flag)
        (mkInit None (DefaultHeaders this) None)).
Proof.
  intros Hroom flag r. subst r. unfold getRoomMessages, oneCall.
  rewrite Hroom. cbn [negb]. fold flag.
  pose proof (definedParams_set queryParams "force" flag) as Hin.
  split.
  - exists (definedParams (entries (set queryParams "force" (VStr flag)))).
    split; [exact Hin|].
    rewrite (queryString_nonempty _ _ Hin), run_call_finish. reflexivity.
  - rewrite run_call_finish. intros [->|[v ->]]; reflexivity.
Qed.

Lemma isValidTaskStatus_spec (s : string) :
  isValidTaskStatus (VStr s) = true <-> s = "open" \/ s = "done".
Proof.
  unfold isValidTaskStatus. cbn [truthy ToString].
  destruct (String.eqb_spec s "") as [->|Hs]; cbn [negb].
  - split; [discriminate|]. intros [H|H]; discriminate H.
  - destruct (String.eqb_spec s "open"), (String.eqb_spec s "done");
      cbn; split; auto; try discriminate.
    intros [H|H]; congruence.
Qed.

(** What [getRoomTasks] does once the status is normalized: a valid
    status is sent, any other is dropped after a warning. *)
Lemma run_getRoomTasks (this : ChatworkClient) (roomId : value)
    (queryParams : object) (v : value) (w : world) :
  truthy roomId = true ->
  trimLower "queryParams.status" (get queryParams "status") w = (inr v, w) ->
  let init := mkInit None (DefaultHeaders this) None in
  let address (o : object) :=
    apiV2Endpoint ++ "/rooms/" ++ ToString roomId ++ "/tasks"
      ++ queryStringFromParamsObject (Some o) in
  getRoomTasks this roomId queryParams w
  = if isValidTaskStatus v then
      (outcome
         (client_fetch this (address (set queryParams "status" v)) init) None,
       mkWorld (env w) (dotenv w) (globalFetch w) (console w)
         (calls w ++ [(address (set queryParams "status" v), init)]))
    else
      (outcome
         (client_fetch this (address (delete queryParams "status")) init) None,
       mkWorld (env w) (dotenv w) (globalFetch w)
         (console w
            ++ [("warn",
                 ("Unknown task status " ++ dquote ++ ToString v ++ dquote
                    ++ ", using default (undefined)")%string)])
         (calls w ++ [(address (delete queryParams "status"), init)])).
Proof.
  intros Hroom Htrim init address. unfold getRoomTasks.
  rewrite Hroom. cbn [negb]. rewrite run_bind, Htrim, get_set_same.
  destruct (isValidTaskStatus v); cbn [negb]; rewrite run_bind.
  - cbn [ret Monad_M]. now rewrite run_call_finish.
  - rewrite run_bind. unfold console_write at 1. cbn [ret Monad_M].
    now rewrite run_call_finish, delete_set_same.
Qed.

(** C8: [getRoomTasks] trims and lower-cases the status filter before it
    uses it.  When the result is open or done, the request carries it in
    place of the status given (status=done for the input " DONE ");
    when it is anything else (bogus, for one) the status is dropped, and
    only the status: the request carries the other parameters and no
    status, so no query string at all when the status was the only
    parameter.  In both cases the call is made and ends as the answer to
    it decides, with the decoded body for an ok response: no error is
    raised for the status. *)
Theorem getRoomTasks_status_filter (this : ChatworkClient) (roomId : value)
    (queryParams : object) (s : string) (w : world) :
  truthy roomId = true ->
  get queryParams "status" = VStr s ->
  let normal := toLowerCase (trim s) in
  let init := mkInit None (DefaultHeaders this) None in
  let address (o : option object) :=
    apiV2Endpoint ++ "/rooms/" ++ ToString roomId ++ "/tasks"
      ++ queryStringFromParamsObject o in
  let r := getRoomTasks this roomId queryParams w in
  let used := set queryParams "status" (VStr normal) in
  let dropped := delete queryParams "status" in
  (normal = "open" \/ normal = "done" ->
   oneCall r w (address (Some used)) init
   /\ fst r = outcome (client_fetch this (address (Some used)) init) None
   /\ In ("status=" ++ normal) (definedParams (entries used))
   /\ (queryParams = [("status", VStr s)] ->
       address (Some used)
       = apiV2Endpoint ++ "/rooms/" ++ ToString roomId ++ "/tasks"
           ++ "?status=" ++ normal))
  /\ (normal <> "open" -> normal <> "done" ->
      oneCall r w (address (Some dropped)) init
      /\ fst r = outcome (client_fetch this (address (Some dropped)) init) None
      /\ (forall res decoded,
            client_fetch this (address (Some dropped)) init = inr res ->
            ok res = true -> json res = inr decoded -> fst r = inr decoded)
      /\ (queryParams = [("status", VStr s)] ->
          address (Some dropped) = address None))
  /\ dropped = filter (fun p => negb (fst p =? "status")%string) queryParams
  /\ get dropped "status" = VUndefined
  /\ address None = apiV2Endpoint ++ "/rooms/" ++ ToString roomId ++ "/tasks"
  /\ toLowerCase (trim " DONE ") = "done"
  /\ toLowerCase (trim "bogus") = "bogus".
Proof.
  intros Hroom Hstatus normal init address r used dropped.
  assert (Htrim :
            trimLower "queryParams.status" (get queryParams "status") w
            = (inr (VStr normal), w)) by now rewrite Hstatus.
  pose proof (run_getRoomTasks this roomId queryParams (VStr normal) w
                Hroom Htrim) as Hrun.
  cbv zeta in Hrun. fold r used dropped in Hrun.
  change (apiV2Endpoint ++ "/rooms/" ++ ToString roomId ++ "/tasks"
            ++ queryStringFromParamsObject ?o)
    with (address o) in Hrun.
  split; [|split; [|split; [|split; [|split; [|split]]]]].
  - intros H. rewrite Hrun, (proj2 (isValidTaskStatus_spec normal) H).
    split; [reflexivity|]. split; [reflexivity|].
    split; [exact (definedParams_set queryParams "status" normal)|].
    intros ->. reflexivity.
  - intros Hopen Hdone. rewrite Hrun.
    destruct (isValidTaskStatus (VStr normal)) eqn:Hv;
      [apply isValidTaskStatus_spec in Hv; tauto|].
    split; [reflexivity|]. split; [reflexivity|]. split.
    + intros res decoded Hres Hok Hjson.
      exact (outcome_ok _ res decoded None Hres Hok Hjson).
    + intros ->. unfold dropped. cbn [delete]. now rewrite String.eqb_refl.
  - apply delete_filter.
  - apply get_delete_same.
  - reflexivity.
  - apply toLowerCase_of_ascii; reflexivity.
  - apply toLowerCase_of_ascii; reflexivity.
Qed.

End QueryStrings.

Lemma getRoomMessages_sends_force_witness :
  oneCall
    (getRoomMessages (engine := utcEngine)
       (constructor (mkOptions "t" (answering 200)))
       (VNum (NInt 42)) [("force", VBool false)] bareWorld)
    bareWorld
    "https://api.chatwork.com/v2/rooms/42/messages?force=0"
    (mkInit None [("accept", "application/json"); ("x-chatworktoken", "t")]
            None).
Proof.
  apply (proj2 (getRoomMessages_sends_force (engine := utcEngine)
                  (constructor (mkOptions "t" (answering 200)))
                  (VNum (NInt 42)) [("force", VBool false)] bareWorld
                  eq_refl)).
  right. exists (VBool false). reflexivity.
Defined.

(** The tasks of room 42 that are done, and a status that is none. *)
Lemma getRoomTasks_status_filter_witness :
  oneCall
    (getRoomTasks (engine := utcEngine)
       (constructor (mkOptions "t" (answering 200)))
       (VNum (NInt 42)) [("status", VStr " DONE ")] bareWorld)
    bareWorld
    "https://api.chatwork.com/v2/rooms/42/tasks?status=done"
    (mkInit None [("accept", "application/json"); ("x-chatworktoken", "t")]
            None)
  /\ oneCall
       (getRoomTasks (engine := utcEngine)
          (constructor (mkOptions "t" (answering 200)))
          (VNum (NInt 42)) [("status", VStr "bogus")] bareWorld)
       bareWorld
       "https://api.chatwork.com/v2/rooms/42/tasks"
       (mkInit None [("accept", "application/json"); ("x-chatworktoken", "t")]
               None).
Proof.
  split.
  - exact (proj1 (proj1
      (getRoomTasks_status_filter (engine := utcEngine)
         (constructor (mkOptions "t" (answering 200)))
         (VNum (NInt 42)) [("status", VStr " DONE ")] " DONE " bareWorld
         eq_refl eq_refl) (or_intror eq_refl))).
  - refine (proj1 (proj1 (proj2
      (getRoomTasks_status_filter (engine := utcEngine)
         (constructor (mkOptions "t" (answering 200)))
         (VNum (NInt 42)) [("status", VStr "bogus")] "bogus" bareWorld
         eq_refl eq_refl)) _ _)); discriminate.
Defined.

(* ===================================================================== *)
(** ** List-valued fields *)
(* ===================================================================== *)

Section ListFields.
Context {engine : JsEngine}.

Lemma run_joinField (formData : object) (k : string) (w : world) :
  joinField formData k w = (inr (joinedField formData k), afterJoin formData k w).
Proof.
  unfold joinField, joinedField, afterJoin.
  destruct (get formData k); reflexivity.
Qed.

Lemma calls_afterJoin (formData : object) (k : string) (w : world) :
  calls (afterJoin formData k w) = calls w.
Proof.
  unfold afterJoin. destruct (get formData k); reflexivity.
Qed.

Lemma get_joinedField_other (formData : object) (k k' : string) :
  k <> k' -> get (joinedField formData k) k' = get formData k'.
Proof.
  intros Hne. unfold joinedField.
  destruct (get formData k); try reflexivity.
  now apply get_set_other.
Qed.

Lemma formPairs_joinedField_other (formData : object) (k k' : string) :
  k <> k' ->
  lookup (formPairs (joinedField formData k)) k'
  = lookup (formPairs formData) k'.
Proof.
  intros Hne. unfold joinedField.
  destruct (get formData k); try reflexivity.
  now apply formPairs_set_other.
Qed.

Lemma formPairs_joinedField_same (formData : object) (k : string)
    (l : list value) :
  get formData k = VArr l ->
  lookup (formPairs (joinedField formData k)) k = Some (join l ",").
Proof.
  intros Hget. unfold joinedField. rewrite Hget.
  now rewrite formPairs_set_same.
Qed.

Lemma joinElement_id (x : value) : isId x -> joinElement x = ToString x.
Proof. destruct x; simpl; intros H; try reflexivity; contradiction. Qed.

(** C9: a list-valued field that holds an array is encoded as its
    elements, in their order, joined by commas (each identifier in its
    string form); this is what [postRooms] sends for the administrators.
    Encoding is idempotent: on the joined string neither the in-place
    join nor the conversion of the form entries changes anything. *)
Theorem list_fields_are_joined_once (this : ChatworkClient)
    (formData : object) (k : string) (l : list value) (w : world) :
  get formData k = VArr l ->
  let joined := String.concat "," (map joinElement l) in
  let encoded := set formData k (VStr joined) in
  (Forall isId l -> joined = String.concat "," (map ToString l))
  /\ fst (joinField formData k w) = inr encoded
  /\ get encoded k = VStr joined
  /\ joinField encoded k w = (inr encoded, w)
  /\ entryValuesAsStrings (k, VArr l) = (k, joined)
  /\ entryValuesAsStrings (k, VStr joined) = (k, joined)
  /\ (k = "members_admin_ids" -> truthy (get formData "name") = true ->
      exists pairs,
        oneCall (postRooms this formData w) w (apiV2Endpoint ++ "/rooms")
          (mkInit (Some "post") (FormDataHeaders this)
                  (Some (URLSearchParams pairs)))
        /\ lookup pairs "members_admin_ids" = Some joined).
Proof.
  intros Hget joined encoded.
  assert (Hencoded : joinedField formData k = encoded).
  { unfold joinedField. now rewrite Hget. }
  assert (Hsame : get encoded k = VStr joined) by apply get_set_same.
  repeat split.
  - intros Hids. unfold joined. f_equal.
    apply map_ext_in. intros x Hx. apply joinElement_id.
    rewrite Forall_forall in Hids. now apply Hids.
  - now rewrite run_joinField, Hencoded.
  - exact Hsame.
  - rewrite run_joinField. unfold joinedField, afterJoin.
    now rewrite Hsame.
  - intros -> Hname. unfold postRooms, oneCall.
    rewrite Hname, Hget. cbn [negb truthy].
    rewrite run_bind, run_joinField, run_bind, run_joinField,
      run_bind, run_joinField, run_call_finish.
    eexists. split.
    + cbn [snd calls]. rewrite !calls_afterJoin. reflexivity.
    + rewrite !formPairs_joinedField_other by discriminate.
      now apply formPairs_joinedField_same.
Qed.

End ListFields.

Lemma list_fields_are_joined_once_witness :
  entryValuesAsStrings (engine := utcEngine)
    ("members_admin_ids", VArr [VNum (NInt 3); VStr "5"; VNum (NInt 8)])
  = ("members_admin_ids", "3,5,8").
Proof.
  exact (proj1 (proj2 (proj2 (proj2 (proj2
    (list_fields_are_joined_once (engine := utcEngine)
       (constructor (mkOptions "t" (answering 200)))
       [("name", VStr "room");
        ("members_admin_ids", VArr [VNum (NInt 3); VStr "5"; VNum (NInt 8)])]
       "members_admin_ids" [VNum (NInt 3); VStr "5"; VNum (NInt 8)]
       bareWorld eq_refl)))))).
Defined.

(* ===================================================================== *)
(** ** Messages and files *)
(* ===================================================================== *)

Section Messages.
Context {engine : JsEngine}.

(** C2: the request of [postRoomFiles] is sent with the client's form
    headers as they are: its body is the two-field multipart form, and
    its headers hold the explicit content-type
    application/x-www-form-urlencoded of the form header set. *)
Theorem postRoomFiles_sends_form_headers (options : ChatworkClientOptions)
    (roomId : value) (formData : object) (w : world) :
  truthy roomId = true ->
  truthy (get formData "file") = true ->
  exists (init : RequestInit) (fields : list (string * FormDataEntryValue)),
    oneCall (postRoomFiles (constructor options) roomId formData w) w
      (apiV2Endpoint ++ "/rooms/" ++ ToString roomId ++ "/files") init
    /\ method init = Some "post"
    /\ body init = Some (FormData fields)
    /\ map fst fields = ["message"; "file"]
    /\ headers init = FormDataHeaders (constructor options)
    /\ lookup (headers init) "content-type"
       = Some "application/x-www-form-urlencoded".
Proof.
  intros Hroom Hfile. unfold postRoomFiles, oneCall.
  rewrite Hroom, Hfile. cbn [negb]. rewrite run_call_finish.
  eexists. eexists. split; [reflexivity|]. repeat split.
Qed.

(** The request [postRoomMessage] sends for a body and a flag. *)
Lemma run_postRoomMessage (this : ChatworkClient) (roomId : value)
    (formData : object) (w : world) :
  truthy roomId = true ->
  truthy (get formData "body") = true ->
  let url := apiV2Endpoint ++ "/rooms/" ++ ToString roomId ++ "/messages" in
  let flag := if truthy (get formData "self_unread") then "1" else "0" in
  let init :=
    mkInit (Some "post") (FormDataHeaders this)
      (Some (formParamsOf (set formData "self_unread" (VStr flag)))) in
  postRoomMessage this roomId formData w
  = (outcome (client_fetch this url init) None,
     mkWorld (env w) (dotenv w) (globalFetch w) (console w)
             (calls w ++ [(url, init)])).
Proof.
  intros Hroom Hbody. unfold postRoomMessage.
  rewrite Hroom, Hbody. cbn [negb]. now rewrite run_call_finish.
Qed.

(** C3 (amended): posting the body "hi" with self_unread true makes
    exactly one call, a POST to the messages path of the room whose form
    body serializes to body=hi&self_unread=1; when the transport answers
    with status 404 the error raised is NotFoundError, and its message
    carries the generic resource label, since [postRoomMessage] passes no
    label to the classifier. *)
Theorem postRoomMessage_hi_unread (options : ChatworkClientOptions)
    (roomId : value) (w : world) :
  truthy roomId = true ->
  let url := apiV2Endpoint ++ "/rooms/" ++ ToString roomId ++ "/messages" in
  let pairs := [("body", "hi"); ("self_unread", "1")] in
  let init :=
    mkInit (Some "post") (FormDataHeaders (constructor options))
           (Some (URLSearchParams pairs)) in
  let r :=
    postRoomMessage (constructor options) roomId
      [("body", VStr "hi"); ("self_unread", VBool true)] w in
  oneCall r w url init
  /\ URLSearchParams_toString pairs = "body=hi&self_unread=1"
  /\ (forall res : Response,
        fetchImpl options url init = inr res ->
        ok res = false -> status res = 404 ->
        fst r = inl (mkError ChatworkErrorClass "NotFoundError"
                       "リソースが存在しない")).
Proof.
  intros Hroom url pairs init r. subst r.
  rewrite (run_postRoomMessage (constructor options) roomId
             [("body", VStr "hi"); ("self_unread", VBool true)] w
             Hroom eq_refl).
  split; [reflexivity|]. split; [reflexivity|].
  intros res Hres Hok Hstatus. cbn [fst].
  change (client_fetch (constructor options)) with (fetchImpl options).
  change (fetchImpl options _ _) with (fetchImpl options url init).
  apply outcome_404. now exists res.
Qed.

End Messages.

(** The request of the upload of three bytes to room 42. *)
Lemma postRoomFiles_sends_form_headers_witness :
  exists (init : RequestInit) (fields : list (string * FormDataEntryValue)),
    oneCall
      (postRoomFiles (engine := utcEngine)
         (constructor (mkOptions "t" (answering 200))) (VNum (NInt 42))
         [("file", VUint8Array "abc"); ("message", VStr "notes")] bareWorld)
      bareWorld
      (apiV2Endpoint ++ "/rooms/" ++ "42" ++ "/files") init
    /\ method init = Some "post"
    /\ body init = Some (FormData fields)
    /\ map fst fields = ["message"; "file"]
    /\ headers init
       = FormDataHeaders (constructor (mkOptions "t" (answering 200)))
    /\ lookup (headers init) "content-type"
       = Some "application/x-www-form-urlencoded".
Proof.
  exact (postRoomFiles_sends_form_headers (engine := utcEngine)
           (mkOptions "t" (answering 200)) (VNum (NInt 42))
           [("file", VUint8Array "abc"); ("message", VStr "notes")]
           bareWorld eq_refl eq_refl).
Defined.

(** C3, as stated, fails: at status 404 the error of [postRoomMessage]
    is not the NotFoundError with the message label. *)
Lemma postRoomMessage_404_label_counterexample :
  fst (postRoomMessage (engine := utcEngine)
         (constructor (mkOptions "t" (answering 404))) (VNum (NInt 42))
         [("body", VStr "hi"); ("self_unread", VBool true)] bareWorld)
  <> inl (ChatworkError 404 (Some "メッセージ")).
Proof. vm_compute. discriminate. Qed.

Lemma postRoomMessage_hi_unread_witness :
  fst (postRoomMessage (engine := utcEngine)
         (constructor (mkOptions "t" (answering 404))) (VNum (NInt 42))
         [("body", VStr "hi"); ("self_unread", VBool true)] bareWorld)
  = inl (mkError ChatworkErrorClass "NotFoundError" "リソースが存在しない").
Proof.
  exact (proj2 (proj2
    (postRoomMessage_hi_unread (engine := utcEngine)
       (mkOptions "t" (answering 404)) (VNum (NInt 42)) bareWorld eq_refl))
    (mkResponse false 404 (inr "{}")) eq_refl eq_refl eq_refl).
Defined.

(** C4, as stated, fails: marking room 42 read with an empty message id
    throws no MissingParameter error and calls the transport. *)
Lemma putRoomMessagesRead_empty_message_id_counterexample :
  let formData := [("message_id", VStr "")] in
  let r :=
    putRoomMessagesRead (engine := utcEngine)
      (constructor (mkOptions "t" (answering 200))) (VNum (NInt 42))
      formData bareWorld in
  truthy (get formData "message_id") = false
  /\ fst r <> inl (MissingParameterError "formData.message_id")
  /\ ~ noCall r bareWorld
  /\ oneCall r bareWorld
       "https://api.chatwork.com/v2/rooms/42/messages/read"
       (mkInit (Some "put")
          (FormDataHeaders (constructor (mkOptions "t" (answering 200))))
          (Some (URLSearchParams [("message_id", "")]))).
Proof.
  cbv zeta. split; [reflexivity|]. split; [|split].
  - vm_compute. discriminate.
  - vm_compute. discriminate.
  - reflexivity.
Qed.

(* ===================================================================== *)
(** ** Tasks: the limit and its type *)
(* ===================================================================== *)

Section Tasks.
Context {engine : JsEngine}.

Lemma limitDate_truthy (v : value) (tv : option Z) :
  limitDate v tv -> truthy v = true.
Proof.
  intros [tv'|n Hn|s Hs]; [reflexivity | exact Hn |].
  simpl. now destruct (String.eqb_spec s "").
Qed.

Lemma run_normalizeLimit_absent (formData : object) (w : world) :
  truthy (get formData "limit") = false ->
  normalizeLimit formData w = (inr formData, w).
Proof.
  intros Hlimit. unfold normalizeLimit. now rewrite Hlimit.
Qed.

(** A given limit of the declared type leaves a [Date] in the object. *)
Lemma run_normalizeLimit_given (formData : object) (tv : option Z)
    (w : world) :
  limitDate (get formData "limit") tv ->
  exists formData',
    normalizeLimit formData w = (inr formData', w)
    /\ get formData' "limit" = VDate tv
    /\ (forall k, k <> "limit" -> get formData' k = get formData k).
Proof.
  intros Hlimit. pose proof (limitDate_truthy _ _ Hlimit) as Htruthy.
  unfold normalizeLimit. rewrite Htruthy.
  remember (get formData "limit") as v eqn:Hv.
  destruct Hlimit as [tv|n Hn|s Hs].
  - exists formData. rewrite <- Hv. cbn. now split.
  - exists (set formData "limit" (VDate (TimeClip n))).
    cbn. rewrite get_set_same. cbn. split; [reflexivity|]. split.
    + reflexivity.
    + intros k Hk. apply get_set_other. congruence.
  - exists (set formData "limit" (VDate (Date_parse s))).
    cbn. rewrite get_set_same. cbn. split; [reflexivity|]. split.
    + reflexivity.
    + intros k Hk. apply get_set_other. congruence.
Qed.

(** Whatever [normalizeLimit] returns holds no limit or a [Date]. *)
Lemma normalizeLimit_returns (formData formData1 : object) (w w1 : world) :
  normalizeLimit formData w = (inr formData1, w1) ->
  truthy (get formData1 "limit") = false
  \/ exists tv, get formData1 "limit" = VDate tv.
Proof.
  unfold normalizeLimit.
  destruct (truthy (get formData "limit")) eqn:Htruthy; cbn [andb].
  - destruct (isDate (get formData "limit")) eqn:Hdate; cbn [negb].
    + intros H. injection H as <- _. right.
      destruct (get formData "limit"); try discriminate Hdate. now eexists.
    + match goal with
      | |- context [isDate (get ?o "limit")] =>
          destruct (isDate (get o "limit")) eqn:Hdate'
      end; cbn [negb]; [|discriminate].
      intros H. injection H as <- _. right.
      match goal with
      | H : isDate ?v = true |- exists tv, ?v = VDate tv =>
          destruct v; try discriminate H; now eexists
      end.
  - intros H. injection H as <- _. now left.
Qed.

Lemma run_defaultLimitType_none (formData : object) (w : world) :
  truthy (get formData "limit_type") = false ->
  truthy (get formData "limit") = false ->
  defaultLimitType formData w
  = (inr (set formData "limit_type" (VStr "none")), w).
Proof.
  intros Htype Hlimit. unfold defaultLimitType. now rewrite Htype, Hlimit.
Qed.

Lemma run_defaultLimitType_date (formData : object) (tv : option Z)
    (w : world) :
  truthy (get formData "limit_type") = false ->
  get formData "limit" = VDate tv ->
  defaultLimitType formData w
  = (inr (set formData "limit_type"
            (VStr (if midnight tv then "date" else "time"))), w).
Proof.
  intros Htype Hlimit. unfold defaultLimitType, midnight.
  rewrite Htype, Hlimit. cbn [negb truthy].
  destruct (isZero (getSeconds tv)), (isZero (getMinutes tv)),
    (isZero (getHours tv)); reflexivity.
Qed.

Lemma run_defaultLimitType_given (formData : object) (s : string)
    (w : world) :
  get formData "limit_type" = VStr s ->
  s <> "" ->
  defaultLimitType formData w
  = (inr (set formData "limit_type" (VStr (toLowerCase (trim s)))), w).
Proof.
  intros Htype Hs. unfold defaultLimitType. rewrite Htype. cbn [truthy].
  now destruct (String.eqb_spec s "").
Qed.

Lemma run_encodeLimit_absent (formData : object) (w : world) :
  truthy (get formData "limit") = false ->
  encodeLimit formData w = (inr formData, w).
Proof.
  intros Hlimit. unfold encodeLimit. now rewrite Hlimit.
Qed.

Lemma run_encodeLimit_date (formData : object) (tv : option Z) (w : world) :
  get formData "limit" = VDate tv ->
  encodeLimit formData w
  = (inr (set formData "limit" (VStr (epochSeconds tv))), w).
Proof.
  intros Hlimit. unfold encodeLimit. now rewrite Hlimit.
Qed.

Lemma isValidLimitType_spec (s : string) :
  isValidLimitType (VStr s) = true <-> In s ["none"; "date"; "time"].
Proof.
  unfold isValidLimitType. cbn [truthy ToString In].
  destruct (String.eqb_spec s "") as [->|Hs]; cbn [negb].
  - split; [discriminate|]. intros [H|[H|[H|[]]]]; discriminate H.
  - destruct (String.eqb_spec s "none"), (String.eqb_spec s "date"),
      (String.eqb_spec s "time"); cbn; split; auto; try discriminate.
    intros [H|[H|[H|[]]]]; congruence.
Qed.

(** The request [postRoomTasks] sends once the limit and its type are
    settled, and the error it throws for a type outside the set. *)
Lemma run_postRoomTasks (this : ChatworkClient) (roomId : value)
    (formData formData1 : object) (X : string) (w : world) :
  truthy roomId = true ->
  truthy (get formData "body") = true ->
  truthy (get formData "to_ids") = true ->
  normalizeLimit formData w = (inr formData1, w) ->
  defaultLimitType formData1 w
  = (inr (set formData1 "limit_type" (VStr X)), w) ->
  let r := postRoomTasks this roomId formData w in
  let url := apiV2Endpoint ++ "/rooms/" ++ ToString roomId ++ "/tasks" in
  (In X ["none"; "date"; "time"] ->
   exists pairs,
     oneCall r w url
       (mkInit (Some "post") (FormDataHeaders this)
               (Some (URLSearchParams pairs)))
     /\ lookup pairs "limit_type" = Some X
     /\ (forall tv, get formData1 "limit" = VDate tv ->
         lookup pairs "limit" = Some (epochSeconds tv)))
  /\ (~ In X ["none"; "date"; "time"] ->
      noCall r w
      /\ fst r = inl (InvalidParameterError "formData.limit_type" X
                        expectedLimitTypes)).
Proof.
  intros Hroom Hbody Hids Hnorm Htype r url. subst r.
  unfold postRoomTasks. rewrite Hroom, Hbody, Hids. cbn [negb].
  rewrite run_bind, Hnorm, run_bind, Htype, get_set_same.
  set (formData2 := set formData1 "limit_type" (VStr X)).
  assert (Hlimit2 : get formData2 "limit" = get formData1 "limit")
    by (apply get_set_other; discriminate).
  split.
  - intros Hvalid. apply isValidLimitType_spec in Hvalid.
    rewrite Hvalid. cbn [negb]. rewrite run_bind, run_joinField.
    set (formData3 := joinedField formData2 "to_ids").
    assert (Hlimit3 : get formData3 "limit" = get formData1 "limit").
    { unfold formData3. rewrite get_joinedField_other by discriminate.
      exact Hlimit2. }
    assert (Htype3 : lookup (formPairs formData3) "limit_type" = Some X).
    { unfold formData3. rewrite formPairs_joinedField_other by discriminate.
      unfold formData2. now rewrite formPairs_set_same. }
    destruct (normalizeLimit_returns _ _ _ _ Hnorm) as [Hnone|[tv Hdate]].
    + rewrite run_bind, run_encodeLimit_absent by congruence.
      rewrite run_call_finish. eexists. unfold oneCall.
      split; [cbn [snd calls]; now rewrite calls_afterJoin|].
      split; [exact Htype3|].
      intros tv Htv. rewrite Htv in Hnone. discriminate Hnone.
    + rewrite run_bind, (run_encodeLimit_date _ tv) by congruence.
      rewrite run_call_finish. eexists. unfold oneCall.
      split; [cbn [snd calls]; now rewrite calls_afterJoin|].
      split.
      * rewrite formPairs_set_other by discriminate. exact Htype3.
      * intros tv' Htv. rewrite Htv in Hdate. injection Hdate as ->.
        now rewrite formPairs_set_same.
  - intros Hinvalid.
    destruct (isValidLimitType (VStr X)) eqn:Hvalid.
    + apply isValidLimitType_spec in Hvalid. contradiction.
    + cbn. unfold noCall. split; reflexivity.
Qed.

(** C6: the limit type [postRoomTasks] sends.  When none is supplied it
    is "none" if no limit is given, "date" if the hours, minutes and
    seconds of the normalized limit are all zero, and "time" otherwise,
    where the normalized limit is the [Date] the code builds: for a
    numeric limit n it is the instant n milliseconds after the epoch, not
    n seconds after it, so the type sent is the one of the time of day of
    that instant.  A supplied limit type is trimmed and lower-cased first
    (" Date " becomes date): if the result is one of none, date and time
    it is what is sent, and otherwise the call throws, before any request,
    the InvalidParameter error that names formData.limit_type, the trimmed
    lower-cased value and the set. *)
Theorem postRoomTasks_limit_type (this : ChatworkClient) (roomId : value)
    (formData : object) (w : world) :
  truthy roomId = true ->
  truthy (get formData "body") = true ->
  truthy (get formData "to_ids") = true ->
  let r := postRoomTasks this roomId formData w in
  let sends (X : string) :=
    exists pairs,
      oneCall r w (apiV2Endpoint ++ "/rooms/" ++ ToString roomId ++ "/tasks")
        (mkInit (Some "post") (FormDataHeaders this)
                (Some (URLSearchParams pairs)))
      /\ lookup pairs "limit_type" = Some X in
  (truthy (get formData "limit_type") = false ->
   (truthy (get formData "limit") = false -> sends "none")
   /\ (forall tv, limitDate (get formData "limit") tv ->
       midnight tv = true -> sends "date")
   /\ (forall tv, limitDate (get formData "limit") tv ->
       midnight tv = false -> sends "time")
   /\ (forall n : Z,
         get formData "limit" = VNum (NInt n) ->
         n <> 0 -> Z.abs n <= 8640000000000000 ->
         sends (if midnight (Some n) then "date" else "time")))
  /\ (forall s, get formData "limit_type" = VStr s -> s <> "" ->
      truthy (get formData "limit") = false
      \/ (exists tv, limitDate (get formData "limit") tv) ->
      let normal := toLowerCase (trim s) in
      (In normal ["none"; "date"; "time"] -> sends normal)
      /\ (~ In normal ["none"; "date"; "time"] ->
          noCall r w
          /\ fst r = inl (InvalidParameterError "formData.limit_type" normal
                            expectedLimitTypes)
          /\ message (InvalidParameterError "formData.limit_type" normal
                        expectedLimitTypes)
             = "formData.limit_type が " ++ normal ++ " となっているが、 "
                 ++ expectedLimitTypes ++ " とすべきである。"))
  /\ toLowerCase (trim " Date ") = "date".
Proof.
  intros Hroom Hbody Hids r sends.
  assert (Hsends : forall formData1 X,
             normalizeLimit formData w = (inr formData1, w) ->
             defaultLimitType formData1 w
             = (inr (set formData1 "limit_type" (VStr X)), w) ->
             In X ["none"; "date"; "time"] -> sends X).
  { intros formData1 X Hnorm Htype Hvalid.
    destruct (proj1 (run_postRoomTasks this roomId formData formData1 X w
                       Hroom Hbody Hids Hnorm Htype) Hvalid)
      as (pairs & Hcall & Hlookup & _).
    exists pairs. now split. }
  assert (Hdated : truthy (get formData "limit_type") = false ->
            forall tv, limitDate (get formData "limit") tv ->
            sends (if midnight tv then "date" else "time")).
  { intros Htype tv Hlimit.
    destruct (run_normalizeLimit_given formData tv w Hlimit)
      as (formData1 & Hnorm & Hdate & Hsame).
    apply (Hsends formData1 _ Hnorm);
      [|destruct (midnight tv); simpl; tauto].
    apply run_defaultLimitType_date; [|exact Hdate].
    rewrite Hsame by discriminate. exact Htype. }
  split; [|split; [|apply toLowerCase_of_ascii; reflexivity]].
  - intros Htype. split; [|split; [|split]].
    + intros Hlimit.
      apply (Hsends formData "none").
      * now apply run_normalizeLimit_absent.
      * now apply run_defaultLimitType_none.
      * simpl. tauto.
    + intros tv Hlimit Hmid.
      pose proof (Hdated Htype tv Hlimit) as H. now rewrite Hmid in H.
    + intros tv Hlimit Hmid.
      pose proof (Hdated Htype tv Hlimit) as H. now rewrite Hmid in H.
    + intros n Hlimit Hn Hrange.
      assert (Hclip : TimeClip (NInt n) = Some n).
      { unfold TimeClip. destruct (Z.leb_spec (Z.abs n) 8640000000000000);
          [reflexivity | lia]. }
      rewrite <- Hclip. apply (Hdated Htype). rewrite Hlimit.
      apply limit_of_number. simpl. now destruct (Z.eqb_spec n 0).
  - intros s Htype Hs Hlimit normal.
    assert (Hsteps : exists formData1,
               normalizeLimit formData w = (inr formData1, w)
               /\ defaultLimitType formData1 w
                  = (inr (set formData1 "limit_type" (VStr normal)), w)).
    { destruct Hlimit as [Hnone|[tv Hlimit]].
      - exists formData. split; [now apply run_normalizeLimit_absent|].
        now apply run_defaultLimitType_given.
      - destruct (run_normalizeLimit_given formData tv w Hlimit)
          as (formData1 & Hnorm & _ & Hsame).
        exists formData1. split; [exact Hnorm|].
        apply run_defaultLimitType_given; [|exact Hs].
        rewrite Hsame by discriminate. exact Htype. }
    destruct Hsteps as (formData1 & Hnorm & Hdefault).
    split.
    + intros Hvalid. now apply (Hsends formData1 normal).
    + intros Hinvalid.
      destruct (proj2 (run_postRoomTasks this roomId formData formData1
                         normal w Hroom Hbody Hids Hnorm Hdefault) Hinvalid)
        as [Hno Herr].
      split; [exact Hno|]. split; [exact Herr | reflexivity].
Qed.

(** C1: the limit field [postRoomTasks] sends is the floor of the time
    value of the normalized [Date] divided by 1000, as a decimal numeral.
    A number is normalized by [new Date], which reads it as milliseconds:
    for a numeric limit n the field holds the numeral of floor(n / 1000),
    and not the numeral of n. *)
Theorem postRoomTasks_limit_encoding (this : ChatworkClient) (roomId : value)
    (formData : object) (w : world) :
  truthy roomId = true ->
  truthy (get formData "body") = true ->
  truthy (get formData "to_ids") = true ->
  truthy (get formData "limit_type") = false ->
  let r := postRoomTasks this roomId formData w in
  let sends (limit : string) :=
    exists pairs,
      oneCall r w (apiV2Endpoint ++ "/rooms/" ++ ToString roomId ++ "/tasks")
        (mkInit (Some "post") (FormDataHeaders this)
                (Some (URLSearchParams pairs)))
      /\ lookup pairs "limit" = Some limit in
  (forall tv, limitDate (get formData "limit") tv -> sends (epochSeconds tv))
  /\ (forall n : Z,
        get formData "limit" = VNum (NInt n) ->
        n <> 0 -> Z.abs n <= 8640000000000000 ->
        sends (decimal (n / 1000))).
Proof.
  intros Hroom Hbody Hids Htype r sends.
  assert (Hdates : forall tv,
             limitDate (get formData "limit") tv -> sends (epochSeconds tv)).
  { intros tv Hlimit.
    destruct (run_normalizeLimit_given formData tv w Hlimit)
      as (formData1 & Hnorm & Hdate & Hsame).
    assert (Hdefault :
              defaultLimitType formData1 w
              = (inr (set formData1 "limit_type"
                        (VStr (if midnight tv then "date" else "time"))), w)).
    { apply run_defaultLimitType_date; [|exact Hdate].
      rewrite Hsame by discriminate. exact Htype. }
    destruct (proj1 (run_postRoomTasks this roomId formData formData1 _ w
                       Hroom Hbody Hids Hnorm Hdefault))
      as (pairs & Hcall & _ & Hlimit1).
    { destruct (midnight tv); simpl; tauto. }
    exists pairs. split; [exact Hcall|]. now apply Hlimit1. }
  split; [exact Hdates|].
  intros n Hlimit Hn Hrange.
  assert (Hclip : TimeClip (NInt n) = Some n).
  { unfold TimeClip. destruct (Z.leb_spec (Z.abs n) 8640000000000000);
      [reflexivity | lia]. }
  change (decimal (n / 1000)) with (epochSeconds (Some n)).
  rewrite <- Hclip. apply Hdates. rewrite Hlimit.
  apply limit_of_number. simpl. now destruct (Z.eqb_spec n 0).
Qed.

End Tasks.

(** A task for room 42 due on 15 November 2023: the limit 1700006400,
    read as seconds, is midnight UTC, and the type sent is time, the one
    of 1700006400 milliseconds after the epoch; and a task without limit
    whose type is given as " Date ". *)
Lemma postRoomTasks_limit_type_witness :
  limitInstant (engine := utcEngine) (VNum (NInt 1700006400))
    (Some 1700006400000)
  /\ midnight (engine := utcEngine) (Some 1700006400000) = true
  /\ (exists pairs,
        oneCall
          (postRoomTasks (engine := utcEngine)
             (constructor (mkOptions "t" (answering 200))) (VNum (NInt 42))
             [("body", VStr "report"); ("to_ids", VStr "7");
              ("limit", VNum (NInt 1700006400))] bareWorld)
          bareWorld "https://api.chatwork.com/v2/rooms/42/tasks"
          (mkInit (Some "post")
             (FormDataHeaders (constructor (mkOptions "t" (answering 200))))
             (Some (URLSearchParams pairs)))
        /\ lookup pairs "limit_type" = Some "time")
  /\ (exists pairs,
        oneCall
          (postRoomTasks (engine := utcEngine)
             (constructor (mkOptions "t" (answering 200))) (VNum (NInt 42))
             [("body", VStr "report"); ("to_ids", VStr "7");
              ("limit_type", VStr " Date ")] bareWorld)
          bareWorld "https://api.chatwork.com/v2/rooms/42/tasks"
          (mkInit (Some "post")
             (FormDataHeaders (constructor (mkOptions "t" (answering 200))))
             (Some (URLSearchParams pairs)))
        /\ lookup pairs "limit_type" = Some "date").
Proof.
  split; [|split; [reflexivity|split]].
  - exact (instant_of_seconds (engine := utcEngine) 1700006400
             ltac:(discriminate)).
  - refine (proj2 (proj2 (proj2 (proj1
      (postRoomTasks_limit_type (engine := utcEngine)
         (constructor (mkOptions "t" (answering 200))) (VNum (NInt 42))
         [("body", VStr "report"); ("to_ids", VStr "7");
          ("limit", VNum (NInt 1700006400))] bareWorld
         eq_refl eq_refl eq_refl) eq_refl))) 1700006400 eq_refl _ _).
    + discriminate.
    + vm_compute. discriminate.
  - refine (proj1 (proj1 (proj2
      (postRoomTasks_limit_type (engine := utcEngine)
         (constructor (mkOptions "t" (answering 200))) (VNum (NInt 42))
         [("body", VStr "report"); ("to_ids", VStr "7");
          ("limit_type", VStr " Date ")] bareWorld
         eq_refl eq_refl eq_refl)) " Date " eq_refl _ _) _).
    + discriminate.
    + left. reflexivity.
    + simpl. tauto.
Defined.

(** A numeric limit of 1700000000 is sent as 1700000. *)
Lemma postRoomTasks_limit_encoding_witness :
  exists pairs,
    oneCall
      (postRoomTasks (engine := utcEngine)
         (constructor (mkOptions "t" (answering 200))) (VNum (NInt 42))
         [("body", VStr "report"); ("to_ids", VStr "7");
          ("limit", VNum (NInt 1700000000))] bareWorld)
      bareWorld "https://api.chatwork.com/v2/rooms/42/tasks"
      (mkInit (Some "post")
         (FormDataHeaders (constructor (mkOptions "t" (answering 200))))
         (Some (URLSearchParams pairs)))
    /\ lookup pairs "limit" = Some "1700000".
Proof.
  refine (proj2
    (postRoomTasks_limit_encoding (engine := utcEngine)
       (constructor (mkOptions "t" (answering 200))) (VNum (NInt 42))
       [("body", VStr "report"); ("to_ids", VStr "7");
        ("limit", VNum (NInt 1700000000))] bareWorld
       eq_refl eq_refl eq_refl eq_refl) 1700000000 eq_refl _ _).
  - discriminate.
  - vm_compute. discriminate.
Defined.

(* ===================================================================== *)
(** ** Required parameters, flags and resource labels *)
(* ===================================================================== *)

Section Guards.
Context {engine : JsEngine}.

(** X1: every presence check of the operations above comes before the call:
    a falsy room id, or a falsy checked field after a truthy room id,
    throws the MissingParameter error that names it, and the world is left
    as it was. *)
Theorem checked_parameters_throw_before_any_call (this : ChatworkClient)
    (roomId messageId : value) (formData : object) (w : world) :
  (truthy roomId = false ->
   getRoomMessages this roomId formData w
     = (inl (MissingParameterError "roomId"), w)
   /\ postRoomMessage this roomId formData w
     = (inl (MissingParameterError "roomId"), w)
   /\ putRoomMessagesRead this roomId formData w
     = (inl (MissingParameterError "roomId"), w)
   /\ putRoomMessagesUnread this roomId formData w
     = (inl (MissingParameterError "roomId"), w)
   /\ putRoomMessage this roomId messageId formData w
     = (inl (MissingParameterError "roomId"), w)
   /\ deleteRoomMessage this roomId messageId w
     = (inl (MissingParameterError "roomId"), w)
   /\ getRoomTasks this roomId formData w
     = (inl (MissingParameterError "roomId"), w)
   /\ postRoomTasks this roomId formData w
     = (inl (MissingParameterError "roomId"), w)
   /\ postRoomFiles this roomId formData w
     = (inl (MissingParameterError "roomId"), w))
  /\ (truthy roomId = true ->
      (truthy messageId = false ->
       putRoomMessage this roomId messageId formData w
         = (inl (MissingParameterError "messageId"), w)
       /\ deleteRoomMessage this roomId messageId w
         = (inl (MissingParameterError "messageId"), w))
      /\ (truthy (get formData "body") = false ->
          postRoomMessage this roomId formData w
            = (inl (MissingParameterError "formData.body"), w)
          /\ postRoomTasks this roomId formData w
            = (inl (MissingParameterError "formData.body"), w)
          /\ (truthy messageId = true ->
              putRoomMessage this roomId messageId formData w
              = (inl (MissingParameterError "formData.body"), w)))
      /\ (truthy (get formData "body") = true ->
          truthy (get formData "to_ids") = false ->
          postRoomTasks this roomId formData w
          = (inl (MissingParameterError "formData.to_ids"), w))
      /\ (truthy (get formData "message_id") = false ->
          putRoomMessagesUnread this roomId formData w
          = (inl (MissingParameterError "formData.message_id"), w))
      /\ (truthy (get formData "file") = false ->
          postRoomFiles this roomId formData w
          = (inl (MissingParameterError "formData.file"), w)))
  /\ (truthy (get formData "name") = false ->
      postRooms this formData w
      = (inl (MissingParameterError "formData.name"), w))
  /\ (truthy (get formData "name") = true ->
      truthy (get formData "members_admin_ids") = false ->
      postRooms this formData w
      = (inl (MissingParameterError "formData.members_admin_ids"), w)).
Proof.
  unfold getRoomMessages, postRoomMessage, putRoomMessagesRead,
    putRoomMessagesUnread, putRoomMessage, deleteRoomMessage, getRoomTasks,
    postRoomTasks, postRoomFiles, postRooms.
  repeat (split || intro);
    repeat match goal with
           | H : truthy _ = _ |- _ => try rewrite H; clear H
           end;
    reflexivity.
Qed.

(** X2: a boolean flag is sent as "1" or "0": what [postRoomMessage] sends
    for self_unread tells the two booleans apart. *)
Theorem self_unread_flag_encoding (this : ChatworkClient) (roomId : value)
    (formData : object) (b : bool) (w : world) :
  truthy roomId = true ->
  truthy (get formData "body") = true ->
  get formData "self_unread" = VBool b ->
  exists pairs,
    oneCall (postRoomMessage this roomId formData w) w
      (apiV2Endpoint ++ "/rooms/" ++ ToString roomId ++ "/messages")
      (mkInit (Some "post") (FormDataHeaders this)
              (Some (URLSearchParams pairs)))
    /\ lookup pairs "self_unread" = Some (if b then "1" else "0")
    /\ (lookup pairs "self_unread" = Some "1" <-> b = true).
Proof.
  intros Hroom Hbody Hflag.
  rewrite (run_postRoomMessage this roomId formData w Hroom Hbody).
  rewrite Hflag. cbn [truthy]. eexists. split; [reflexivity|].
  unfold formParamsOf. rewrite formPairs_set_same. cbn [snd entryValuesAsStrings ToString].
  split; [reflexivity|]. destruct b; split; congruence.
Qed.

(** X3: the operations that address one message by its id pass the message
    label to the classifier: at status 404 their error says that the
    message does not exist.  This holds for every call that passes the
    presence checks of its operation: none but the room id for
    [putRoomMessagesRead], the message id of the form for
    [putRoomMessagesUnread], the message id and the body for
    [putRoomMessage], the message id for [deleteRoomMessage]. *)
Theorem message_operations_label_not_found (this : ChatworkClient)
    (roomId messageId : value) (marker edited : object) (w : world) :
  truthy roomId = true ->
  (forall url init,
      exists res,
        client_fetch this url init = inr res
        /\ ok res = false /\ status res = 404) ->
  let notFound :=
    inl (mkError ChatworkErrorClass "NotFoundError" "メッセージが存在しない") in
  fst (putRoomMessagesRead this roomId marker w) = notFound
  /\ (truthy (get marker "message_id") = true ->
      fst (putRoomMessagesUnread this roomId marker w) = notFound)
  /\ (truthy messageId = true ->
      truthy (get edited "body") = true ->
      fst (putRoomMessage this roomId messageId edited w) = notFound)
  /\ (truthy messageId = true ->
      fst (deleteRoomMessage this roomId messageId w) = notFound).
Proof.
  intros Hroom Hanswer notFound.
  assert (Hfinish : forall url init w1,
             fst ((res <- call (client_fetch this) url init ;;
                   finish res (Some "メッセージ")) w1)
             = notFound).
  { intros url init w1. rewrite run_call_finish. cbn [fst].
    now rewrite (outcome_404 _ _ (Hanswer url init)). }
  unfold putRoomMessagesRead, putRoomMessagesUnread, putRoomMessage,
    deleteRoomMessage.
  rewrite Hroom. cbn [negb]. split; [apply Hfinish|]. split; [|split].
  - intros Hid. rewrite Hid. apply Hfinish.
  - intros Hmessage Hbody. rewrite Hmessage, Hbody. apply Hfinish.
  - intros Hmessage. rewrite Hmessage. apply Hfinish.
Qed.

(** X4: the query string of a missing or empty parameter object is empty,
    a property whose value is undefined or null is left out, and the
    other properties are written key=value in the order of the object,
    joined by ampersands after a question mark. *)
Theorem queryString_omits_undefined (before after : object) (k : string)
    (v : value) :
  queryStringFromParamsObject None = ""
  /\ queryStringFromParamsObject (Some []) = ""
  /\ (v = VUndefined \/ v = VNull ->
      queryStringFromParamsObject (Some (before ++ (k, v) :: after)%list)
      = queryStringFromParamsObject (Some (before ++ after)%list))
  /\ (v <> VUndefined -> v <> VNull ->
      definedParams (entries (before ++ (k, v) :: after)%list)
      = (definedParams (entries before)
           ++ (k ++ "=" ++ ToString v)%string
                :: definedParams (entries after))%list
      /\ queryStringFromParamsObject (Some (before ++ (k, v) :: after)%list)
         = "?" ++ String.concat "&"
                    (definedParams (entries (before ++ (k, v) :: after)%list))).
Proof.
  assert (Happ : forall o1 o2 : object,
             definedParams (o1 ++ o2)%list
             = (definedParams o1 ++ definedParams o2)%list).
  { intros o1 o2. induction o1 as [|[k1 v1] o1 IH]; [reflexivity|].
    cbn [app definedParams]. rewrite IH. now destruct v1. }
  split; [reflexivity|]. split; [reflexivity|]. split.
  - intros Hv. unfold queryStringFromParamsObject, entries.
    rewrite !Happ. now destruct Hv as [-> | ->].
  - intros Hundefined Hnull.
    assert (Hdefined :
              definedParams (entries (before ++ (k, v) :: after)%list)
              = (definedParams (entries before)
                   ++ (k ++ "=" ++ ToString v)%string
                        :: definedParams (entries after))%list).
    { unfold entries. rewrite Happ. cbn [definedParams].
      destruct v; try reflexivity; contradiction. }
    split; [exact Hdefined|].
    apply (queryString_nonempty _ (k ++ "=" ++ ToString v)).
    rewrite Hdefined. apply in_or_app. right. now left.
Qed.

End Guards.

Lemma checked_parameters_throw_before_any_call_witness :
  putRoomMessagesUnread (engine := utcEngine)
    (constructor (mkOptions "t" (answering 200))) (VNum (NInt 42))
    [("message_id", VStr "")] bareWorld
  = (inl (MissingParameterError "formData.message_id"), bareWorld).
Proof.
  exact (proj1 (proj2 (proj2 (proj2 (proj1 (proj2
    (checked_parameters_throw_before_any_call (engine := utcEngine)
       (constructor (mkOptions "t" (answering 200)))
       (VNum (NInt 42)) VUndefined [("message_id", VStr "")] bareWorld))
    eq_refl)))) eq_refl).
Defined.

Lemma self_unread_flag_encoding_witness :
  exists pairs,
    oneCall
      (postRoomMessage (engine := utcEngine)
         (constructor (mkOptions "t" (answering 200))) (VNum (NInt 42))
         [("body", VStr "hi"); ("self_unread", VBool false)] bareWorld)
      bareWorld "https://api.chatwork.com/v2/rooms/42/messages"
      (mkInit (Some "post")
         (FormDataHeaders (constructor (mkOptions "t" (answering 200))))
         (Some (URLSearchParams pairs)))
    /\ lookup pairs "self_unread" = Some "0"
    /\ (lookup pairs "self_unread" = Some "1" <-> false = true).
Proof.
  exact (self_unread_flag_encoding (engine := utcEngine)
           (constructor (mkOptions "t" (answering 200))) (VNum (NInt 42))
           [("body", VStr "hi"); ("self_unread", VBool false)] false
           bareWorld eq_refl eq_refl eq_refl).
Defined.

(** Editing message 7 of room 42, and marking the room read up to the
    last message, when the room has no such message. *)
Lemma message_operations_label_not_found_witness :
  fst (putRoomMessage (engine := utcEngine)
         (constructor (mkOptions "t" (answering 404)))
         (VNum (NInt 42)) (VNum (NInt 7)) [("body", VStr "hi")] bareWorld)
  = inl (mkError ChatworkErrorClass "NotFoundError" "メッセージが存在しない")
  /\ fst (putRoomMessagesRead (engine := utcEngine)
            (constructor (mkOptions "t" (answering 404)))
            (VNum (NInt 42)) [] bareWorld)
     = inl (mkError ChatworkErrorClass "NotFoundError" "メッセージが存在しない").
Proof.
  pose proof
    (message_operations_label_not_found (engine := utcEngine)
       (constructor (mkOptions "t" (answering 404)))
       (VNum (NInt 42)) (VNum (NInt 7)) [] [("body", VStr "hi")] bareWorld
       eq_refl
       (fun _ _ =>
          ex_intro _ (mkResponse false 404 (inr "{}"))
            (conj eq_refl (conj eq_refl eq_refl))))
    as (Hread & _ & Hedit & _).
  split; [exact (Hedit eq_refl eq_refl) | exact Hread].
Defined.

Lemma queryString_omits_undefined_witness :
  queryStringFromParamsObject (engine := utcEngine)
    (Some [("account_id", VNum (NInt 7)); ("status", VUndefined)])
  = queryStringFromParamsObject (engine := utcEngine)
      (Some [("account_id", VNum (NInt 7))]).
Proof.
  exact (proj1 (proj2 (proj2
    (queryString_omits_undefined (engine := utcEngine)
       [("account_id", VNum (NInt 7))] [] "status" VUndefined)))
    (or_introl eq_refl)).
Defined.

(* ===================================================================== *)
(** ** Every operation: one call at most, well-formed, decided by the
       response *)
(* ===================================================================== *)

Lemma quiet_refl (w : world) : quiet w w.
Proof. repeat split. Qed.

Lemma quiet_trans (w1 w2 w3 : world) :
  quiet w1 w2 -> quiet w2 w3 -> quiet w1 w3.
Proof.
  intros (E1 & D1 & F1 & C1) (E2 & D2 & F2 & C2).
  repeat split; congruence.
Qed.

Lemma class_ChatworkError (statusCode : Z) (resourceType : option string) :
  class (ChatworkError statusCode resourceType) = ChatworkErrorClass.
Proof.
  unfold ChatworkError.
  repeat match goal with
         | |- context [if ?b then _ else _] => destruct b
         end; reflexivity.
Qed.

Lemma no_call_is_not_a_call {X : Type} (l : list X) (x : X) :
  l <> (l ++ [x])%list.
Proof.
  intros H. apply (f_equal (@length X)) in H.
  rewrite length_app in H. simpl in H. lia.
Qed.

(** The first falsy entry of a list of checks, in the two ways of saying
    it. *)
Lemma firstMissing_split (before after : list (string * value))
    (name : string) (v : value) :
  Forall (fun p => truthy (snd p) = true) before ->
  truthy v = false ->
  firstMissing (before ++ (name, v) :: after) = Some name.
Proof.
  intros Hbefore Hv. induction Hbefore as [|[k x] rest Hx _ IH].
  - cbn [app firstMissing]. now rewrite Hv.
  - cbn [app firstMissing]. cbn [snd] in Hx. now rewrite Hx.
Qed.

Lemma firstMissing_none (checks : list (string * value)) :
  Forall (fun p => truthy (snd p) = true) checks ->
  firstMissing checks = None.
Proof.
  intros Hchecks. induction Hchecks as [|[k x] rest Hx _ IH]; [reflexivity|].
  cbn [firstMissing]. cbn [snd] in Hx. now rewrite Hx.
Qed.

Section Runs.
Context {A : Type}.
Variable allowed : ErrorClass -> bool.
Variable ending : Rejection + Response -> option string -> JsError + A.
Variable this : ChatworkClient.

Lemma Run_quiet (w0 w : world) (r : (JsError + A) * world) :
  quiet w0 w -> Run allowed ending this w r -> Run allowed ending this w0 r.
Proof.
  intros Hq [e w' He Hq'|url init l w' Hq' Hwf].
  - apply Run_thrown; [exact He | now apply quiet_trans with w].
  - apply Run_called; [now apply quiet_trans with w | exact Hwf].
Qed.

Lemma Run_throw (w : world) (e : JsError) :
  allowed (class e) = true -> Run allowed ending this w (throw e w).
Proof. intros He. apply Run_thrown; [exact He | apply quiet_refl]. Qed.

Lemma Run_if (w : world) (b : bool) (m1 m2 : M A) :
  Run allowed ending this w (m1 w) -> Run allowed ending this w (m2 w) ->
  Run allowed ending this w ((if b then m1 else m2) w).
Proof. now destruct b. Qed.

Lemma Run_bind_pre {B : Type} (w : world) (m : M B) (k : B -> M A) :
  Pre allowed m ->
  (forall b w', Run allowed ending this w' (k b w')) ->
  Run allowed ending this w ((x <- m ;; k x) w).
Proof.
  intros Hpre Hk. specialize (Hpre w). rewrite run_bind.
  destruct (m w) as [[e|b] w'].
  - destruct Hpre as [He Hq]. now apply Run_thrown.
  - apply Run_quiet with w'; [exact Hpre | apply Hk].
Qed.

Lemma Run_map {B : Type} (f : A -> B) (w : world) (m : M A) :
  Run allowed ending this w (m w) ->
  Run allowed (fun answer l => mapResult f (ending answer l)) this w
    ((x <- m ;; ret (f x)) w).
Proof.
  intros H. rewrite run_bind. destruct (m w) as [r w1].
  inversion H as [e w' He Hq|url init l w' Hq Hwf Hr]; subst.
  - now apply Run_thrown.
  - pose proof (Run_called allowed
                  (fun answer l => mapResult f (ending answer l))
                  this w url init l w' Hq Hwf) as H'.
    cbv beta in H'. destruct (ending (client_fetch this url init) l);
      exact H'.
Qed.

(** The call of a run, when there is one. *)
Lemma Run_oneCall (w : world) (r : (JsError + A) * world)
    (url : string) (init : RequestInit) :
  Run allowed ending this w r -> oneCall r w url init ->
  wellFormed this url init
  /\ exists resourceType,
       fst r = ending (client_fetch this url init) resourceType.
Proof.
  unfold oneCall.
  intros [e w' He (E & D & F & C)|url0 init0 l w' (E & D & F & C) Hwf];
    cbn [snd fst calls]; intros Hcall.
  - rewrite C in Hcall. now apply no_call_is_not_a_call in Hcall.
  - rewrite C in Hcall. apply app_inv_head in Hcall.
    injection Hcall as -> ->. split; [exact Hwf|]. now exists l.
Qed.

End Runs.

Lemma Run_call_finish (allowed : ErrorClass -> bool) (this : ChatworkClient)
    (w : world) (url : string) (init : RequestInit)
    (resourceType : option string) :
  wellFormed this url init ->
  Run allowed outcome this w
    ((res <- call (client_fetch this) url init ;; finish res resourceType) w).
Proof.
  intros Hwf. rewrite run_call_finish.
  exact (Run_called allowed outcome this w url init resourceType w
           (quiet_refl w) Hwf).
Qed.

Lemma Run_call_finishVoid (allowed : ErrorClass -> bool)
    (this : ChatworkClient) (w : world) (url : string) (init : RequestInit)
    (resourceType : option string) :
  wellFormed this url init ->
  Run allowed outcomeVoid this w
    ((res <- call (client_fetch this) url init ;;
      finishVoid res resourceType) w).
Proof.
  intros Hwf. rewrite run_call_finishVoid.
  exact (Run_called allowed outcomeVoid this w url init resourceType w
           (quiet_refl w) Hwf).
Qed.

Section Steps.
Variable allowed : ErrorClass -> bool.

Lemma Pre_ret {A : Type} (a : A) : Pre allowed (ret a).
Proof. intros w. apply quiet_refl. Qed.

Lemma Pre_throw {A : Type} (e : JsError) :
  allowed (class e) = true -> Pre allowed (throw (A := A) e).
Proof. intros He w. split; [exact He | apply quiet_refl]. Qed.

Lemma Pre_if {A : Type} (b : bool) (m1 m2 : M A) :
  Pre allowed m1 -> Pre allowed m2 -> Pre allowed (if b then m1 else m2).
Proof. now destruct b. Qed.

Lemma Pre_bind {A B : Type} (m : M A) (k : A -> M B) :
  Pre allowed m -> (forall a, Pre allowed (k a)) ->
  Pre allowed (x <- m ;; k x).
Proof.
  intros Hm Hk w. specialize (Hm w). rewrite run_bind.
  destruct (m w) as [[e|a] w']; [exact Hm|].
  specialize (Hk a w'). destruct (k a w') as [[e|b] w''].
  - destruct Hk as [He Hq]. split; [exact He | now apply quiet_trans with w'].
  - now apply quiet_trans with w'.
Qed.

Lemma Pre_console_write (how text : string) :
  Pre allowed (console_write how text).
Proof. intros w. repeat split. Qed.

End Steps.

(** What the methods do once their presence checks are passed: with the
    errors of the engine and the InvalidParameter error allowed before the
    call, and no other. *)
Section AfterChecks.
Context {engine : JsEngine}.
Variable allowed : ErrorClass -> bool.
Hypothesis allows_TypeError : allowed TypeError = true.
Hypothesis allows_InvalidParameterError :
  allowed InvalidParameterErrorClass = true.

Lemma Pre_joinField (formData : object) (k : string) :
  Pre allowed (joinField formData k).
Proof.
  unfold joinField. destruct (get formData k); try apply Pre_ret.
  apply Pre_bind; [apply Pre_console_write | intros ?; apply Pre_ret].
Qed.

Lemma Pre_trimLower (what : string) (v : value) :
  Pre allowed (trimLower what v).
Proof.
  destruct v; cbn [trimLower]; try apply Pre_ret;
    apply Pre_throw; exact allows_TypeError.
Qed.

Lemma Pre_normalizeLimit (formData : object) :
  Pre allowed (normalizeLimit formData).
Proof.
  unfold normalizeLimit. apply Pre_if; [|apply Pre_ret].
  cbv zeta. apply Pre_if;
    [apply Pre_throw; exact allows_InvalidParameterError | apply Pre_ret].
Qed.

Lemma Pre_defaultLimitType (formData : object) :
  Pre allowed (defaultLimitType formData).
Proof.
  unfold defaultLimitType. apply Pre_if.
  - apply Pre_if; [apply Pre_ret|].
    destruct (get formData "limit");
      try (apply Pre_throw; exact allows_TypeError).
    apply Pre_if; apply Pre_ret.
  - destruct (get formData "limit_type");
      try (apply Pre_throw; exact allows_TypeError).
    apply Pre_ret.
Qed.

Lemma Pre_encodeLimit (formData : object) :
  Pre allowed (encodeLimit formData).
Proof.
  unfold encodeLimit. apply Pre_if; [|apply Pre_ret].
  destruct (get formData "limit");
    try (apply Pre_throw; exact allows_TypeError).
  apply Pre_ret.
Qed.

Ltac pre :=
  repeat first
    [ apply Pre_ret
    | apply Pre_console_write
    | apply Pre_joinField
    | apply Pre_trimLower
    | apply Pre_normalizeLimit
    | apply Pre_defaultLimitType
    | apply Pre_encodeLimit
    | apply Pre_throw; first [ exact allows_TypeError
                             | exact allows_InvalidParameterError ]
    | apply Pre_if
    | apply Pre_bind; [|intros ?] ].

Ltac well_formed :=
  unfold wellFormed; cbn [body headers method]; split;
  [ eexists; reflexivity
  | first [ reflexivity | split; [reflexivity | simpl; tauto] ] ].

Ltac run :=
  cbv zeta;
  repeat first
    [ apply Run_throw; first [ exact allows_TypeError
                             | exact allows_InvalidParameterError ]
    | apply Run_call_finish; well_formed
    | apply Run_call_finishVoid; well_formed
    | apply Run_if
    | apply Run_bind_pre; [pre | intros ? ?; cbv zeta] ].

(** The presence checks of an operation that all pass are skipped. *)
Ltac passed H :=
  cbn [checkedParameters firstMissing] in H;
  repeat match type of H with
         | context [truthy ?v] => destruct (truthy v); [|discriminate H]
         end;
  cbn [negb].

Lemma perform_Run_checked (this : ChatworkClient) (op : Operation)
    (w : world) :
  firstMissing (checkedParameters op) = None ->
  statusBodyMissing op = false ->
  Run allowed (endingOf op) this w (perform this op w).
Proof.
  intros Hchecks Hbody. unfold endingOf.
  destruct op; cbn [perform returnsNothing]; unfold decoded, nothing;
    first [ apply (Run_map allowed outcome this Some)
          | apply (Run_map allowed outcomeVoid this (fun _ => None)) ].
  - unfold getMe. run.
  - unfold getMyStatus. run.
  - unfold getMyTasks. run.
  - unfold getContacts. run.
  - unfold getRooms. run.
  - unfold postRooms. passed Hchecks. run.
  - unfold getRoom. passed Hchecks. run.
  - unfold putRoom. passed Hchecks. run.
  - unfold deleteRooms. passed Hchecks. run.
  - unfold getRoomMembers. passed Hchecks. run.
  - unfold putRoomMembers. passed Hchecks. run.
  - unfold getRoomMessages. passed Hchecks. run.
  - unfold postRoomMessage. passed Hchecks. run.
  - unfold putRoomMessagesRead. passed Hchecks. run.
  - unfold putRoomMessagesUnread. passed Hchecks. run.
  - unfold getRoomMessage. passed Hchecks. run.
  - unfold putRoomMessage. passed Hchecks. run.
  - unfold deleteRoomMessage. passed Hchecks. run.
  - unfold getRoomTasks. passed Hchecks. run.
  - unfold postRoomTasks. passed Hchecks. run.
  - unfold getRoomTask. passed Hchecks. run.
  - unfold putRoomTaskStatus. passed Hchecks. cbn [statusBodyMissing] in Hbody.
    rewrite run_bind.
    destruct (get formData "body") eqn:Hget; try discriminate Hbody;
      cbn [trimLower];
      try (apply Run_throw; exact allows_TypeError).
    cbn [ret Monad_M]. cbv zeta. rewrite get_set_same. cbn [truthy].
    rewrite Hbody. cbn [negb]. run.
  - unfold getRoomFiles. passed Hchecks. run.
  - unfold postRoomFiles. passed Hchecks. run.
  - unfold getRoomFile. passed Hchecks. run.
  - unfold getRoomLink. passed Hchecks. run.
  - unfold postRoomLink. passed Hchecks. run.
  - unfold putRoomLink. passed Hchecks. run.
  - unfold deleteRoomLink. passed Hchecks. run.
  - unfold getIncomingRequests. run.
  - unfold putIncomingRequests. passed Hchecks. run.
  - unfold deleteIncomingRequest. passed Hchecks. run.
Qed.

End AfterChecks.

Section AllOperations.
Context {engine : JsEngine}.

(** The first check that fails decides the result. *)
Lemma perform_firstMissing (this : ChatworkClient) (op : Operation)
    (w : world) (name : string) :
  firstMissing (checkedParameters op) = Some name ->
  perform this op w = (inl (MissingParameterError name), w).
Proof.
  destruct op; cbn [checkedParameters firstMissing]; intros H;
    try discriminate H; cbn [perform]; unfold decoded, nothing;
    unfold postRooms, getRoom, putRoom, deleteRooms, getRoomMembers,
      putRoomMembers, getRoomMessages, postRoomMessage, putRoomMessagesRead,
      putRoomMessagesUnread, getRoomMessage, putRoomMessage,
      deleteRoomMessage, getRoomTasks, postRoomTasks, getRoomTask,
      putRoomTaskStatus, getRoomFiles, postRoomFiles, getRoomFile,
      getRoomLink, postRoomLink, putRoomLink, deleteRoomLink,
      putIncomingRequests, deleteIncomingRequest;
    repeat match type of H with
           | context [truthy ?v] => destruct (truthy v)
           end;
    try discriminate H; injection H as <-; reflexivity.
Qed.

Lemma perform_statusBodyMissing (this : ChatworkClient) (op : Operation)
    (w : world) :
  firstMissing (checkedParameters op) = None ->
  statusBodyMissing op = true ->
  perform this op w = (inl (MissingParameterError "formData.body"), w).
Proof.
  destruct op; cbn [statusBodyMissing]; intros Hchecks Hbody;
    try discriminate Hbody.
  cbn [checkedParameters firstMissing] in Hchecks.
  cbn [perform]. unfold decoded, putRoomTaskStatus.
  destruct (truthy roomId); [|discriminate Hchecks].
  destruct (truthy taskId); [|discriminate Hchecks].
  cbn [negb]. rewrite !run_bind.
  destruct (get formData "body") eqn:Hget; try discriminate Hbody;
    cbn [trimLower ret Monad_M]; rewrite get_set_same; cbn [truthy negb];
    try reflexivity.
  apply String.eqb_eq in Hbody. rewrite Hbody. reflexivity.
Qed.

(** Every method ends in one of the two ways of [Run]. *)
Lemma perform_Run (this : ChatworkClient) (op : Operation) (w : world) :
  Run beforeCall (endingOf op) this w (perform this op w).
Proof.
  destruct (firstMissing (checkedParameters op)) as [name|] eqn:Hchecks.
  - rewrite (perform_firstMissing this op w name Hchecks).
    apply Run_thrown; [reflexivity | apply quiet_refl].
  - destruct (statusBodyMissing op) eqn:Hbody.
    + rewrite (perform_statusBodyMissing this op w Hchecks Hbody).
      apply Run_thrown; [reflexivity | apply quiet_refl].
    + now apply perform_Run_checked.
Qed.

(** The errors at the end of a method are no MissingParameter errors. *)
Lemma endingOf_not_missing (op : Operation) (answer : Rejection + Response)
    (resourceType : option string) (e : JsError) :
  endingOf op answer resourceType = inl e ->
  class e <> MissingParameterErrorClass.
Proof.
  unfold endingOf, outcome, outcomeVoid.
  destruct (returnsNothing op), answer as [reason|res];
    cbn [mapResult]; try (intros [= <-]; discriminate);
    destruct (ok res); cbn [mapResult];
    try (intros [= <-]; rewrite class_ChatworkError; discriminate);
    try discriminate.
  destruct (json res); cbn [mapResult]; [|discriminate].
  intros [= <-]. discriminate.
Qed.

(** C4 (amended): the presence checks of every operation.  Each operation
    checks the parameters of [checkedParameters], in that order, before it
    does anything else: the first of them whose value is falsy (absent,
    undefined, null, the empty string, zero, NaN or false) makes the
    operation throw the MissingParameter error that names it, and leaves
    the runtime as it was: no call, nothing written.  When all of them are
    truthy, [putRoomTaskStatus] reports a body that is undefined, null or
    empty once normalized as the missing parameter formData.body, again
    with no call; and in every other case the operation throws no
    MissingParameter error at all: no other field is checked for
    presence. *)
Theorem missing_checked_parameter_throws_before_any_call
    (this : ChatworkClient) (op : Operation) (w : world) :
  (forall before name v after,
      checkedParameters op = (before ++ (name, v) :: after)%list ->
      Forall (fun p => truthy (snd p) = true) before ->
      truthy v = false ->
      perform this op w = (inl (MissingParameterError name), w))
  /\ (Forall (fun p => truthy (snd p) = true) (checkedParameters op) ->
      (statusBodyMissing op = true ->
       perform this op w = (inl (MissingParameterError "formData.body"), w))
      /\ (statusBodyMissing op = false ->
          forall e, fst (perform this op w) = inl e ->
                    class e <> MissingParameterErrorClass))
  /\ (forall name,
        message (MissingParameterError name) = name ++ " は必須パラメータです。").
Proof.
  split; [|split; [|reflexivity]].
  - intros before name v after Hsplit Hbefore Hv.
    apply perform_firstMissing. rewrite Hsplit.
    now apply firstMissing_split.
  - intros Hchecks. apply firstMissing_none in Hchecks. split.
    + intros Hbody. now apply perform_statusBodyMissing.
    + intros Hbody e He.
      pose proof (perform_Run_checked afterChecks eq_refl eq_refl this op w
                    Hchecks Hbody) as Hrun.
      destruct (perform this op w) as [r w1]. cbn [fst] in He. subst r.
      inversion Hrun as [e' w' Hallowed Hq|url init l w' Hq Hwf Hr]; subst.
      * intros Hclass. rewrite Hclass in Hallowed. discriminate Hallowed.
      * now apply endingOf_not_missing in Hr.
Qed.

End AllOperations.

(** Marking room 42 unread with an empty message id. *)
Lemma missing_checked_parameter_throws_before_any_call_witness :
  perform (engine := utcEngine)
    (constructor (mkOptions "t" (answering 200)))
    (PutRoomMessagesUnread (VNum (NInt 42)) [("message_id", VStr "")])
    bareWorld
  = (inl (MissingParameterError "formData.message_id"), bareWorld).
Proof.
  exact (proj1
    (missing_checked_parameter_throws_before_any_call (engine := utcEngine)
       (constructor (mkOptions "t" (answering 200)))
       (PutRoomMessagesUnread (VNum (NInt 42)) [("message_id", VStr "")])
       bareWorld)
    [("roomId", VNum (NInt 42))] "formData.message_id" (VStr "") []
    eq_refl
    (Forall_cons ("roomId", VNum (NInt 42))
       (eq_refl : truthy (snd ("roomId", VNum (NInt 42))) = true)
       (Forall_nil _))
    eq_refl).
Defined.

Section Requests.
Context {engine : JsEngine}.

(** X5: a method of the client makes at most one call through the
    transport, whatever its arguments, and leaves the environment, the
    .env entries and the global fetch of the runtime as they were. *)
Theorem every_operation_makes_at_most_one_call (this : ChatworkClient)
    (op : Operation) (w : world) :
  let r := perform this op w in
  env (snd r) = env w
  /\ dotenv (snd r) = dotenv w
  /\ globalFetch (snd r) = globalFetch w
  /\ (noCall r w \/ exists url init, oneCall r w url init).
Proof.
  cbv zeta. unfold noCall, oneCall.
  destruct (perform_Run this op w)
    as [e w' He (E & D & F & C)|url init l w' (E & D & F & C) Hwf];
    cbn [snd env dotenv globalFetch calls].
  - repeat split; auto.
  - repeat split; auto. right. exists url, init. now rewrite C.
Qed.

(** X6: every request of a client built by the constructor goes to an
    address under the API endpoint and carries the token of the client and
    the JSON accept header; a request without body has no content-type,
    and a request with a body has the method post, put or delete and the
    content-type application/x-www-form-urlencoded. *)
Theorem requests_are_authenticated (options : ChatworkClientOptions)
    (op : Operation) (w : world) (url : string) (init : RequestInit) :
  oneCall (perform (constructor options) op w) w url init ->
  (exists path, url = apiV2Endpoint ++ "/" ++ path)
  /\ lookup (headers init) "x-chatworktoken" = Some (token options)
  /\ lookup (headers init) "accept" = Some "application/json"
  /\ match body init with
     | None =>
         lookup (headers init) "content-type" = None
     | Some _ =>
         lookup (headers init) "content-type"
         = Some "application/x-www-form-urlencoded"
         /\ In (method init) [Some "post"; Some "put"; Some "delete"]
     end.
Proof.
  intros Hcall.
  destruct (Run_oneCall _ _ _ _ _ _ _ (perform_Run _ op w) Hcall)
    as [[Hurl Hshape] _].
  split; [exact Hurl|].
  destruct (body init).
  - destruct Hshape as [-> Hmethod]. repeat split. exact Hmethod.
  - rewrite Hshape. repeat split.
Qed.

(** X7: the answer to the one call decides the result.  A method returns
    only after exactly one call that was answered with an ok response
    whose body could be decoded, and returns the decoded body (nothing,
    without reading the body, for the two methods without result).  It
    throws a [ChatworkError] only after exactly one call whose response
    was not ok, and the error is the one of the response status.  It
    passes on the reason of a rejection only after exactly one call: the
    call itself was rejected, or the decoding of the body of an ok
    response was.  The other errors, the TypeError of the engine and the
    MissingParameter and InvalidParameter errors, are thrown with no call
    made; no other error is thrown. *)
Theorem result_is_decided_by_the_response (this : ChatworkClient)
    (op : Operation) (w : world) :
  let r := perform this op w in
  match fst r with
  | inr a =>
      exists url init res,
        oneCall r w url init
        /\ client_fetch this url init = inr res
        /\ ok res = true
        /\ if returnsNothing op then a = None
           else exists decoded, json res = inr decoded /\ a = Some decoded
  | inl e =>
      match class e with
      | ChatworkErrorClass =>
          exists url init res resourceType,
            oneCall r w url init
            /\ client_fetch this url init = inr res
            /\ ok res = false
            /\ e = ChatworkError (status res) resourceType
      | Rejected =>
          exists url init,
            oneCall r w url init
            /\ ((exists reason,
                    client_fetch this url init = inl reason
                    /\ e = rejected reason)
                \/ (exists res reason,
                       client_fetch this url init = inr res
                       /\ ok res = true
                       /\ returnsNothing op = false
                       /\ json res = inl reason
                       /\ e = rejected reason))
      | TypeError | MissingParameterErrorClass | InvalidParameterErrorClass =>
          noCall r w
      | PlainError => False
      end
  end.
Proof.
  cbv zeta. unfold noCall, oneCall.
  destruct (perform_Run this op w)
    as [e w' He (E & D & F & C)|url init l w' (E & D & F & C) Hwf];
    cbn [snd fst calls].
  - destruct (class e); try discriminate He; exact C.
  - unfold endingOf, outcome, outcomeVoid.
    assert (Hcall : (calls w' ++ [(url, init)])%list
                    = (calls w ++ [(url, init)])%list) by now rewrite C.
    destruct (client_fetch this url init) as [reason|res] eqn:Hanswer.
    + destruct (returnsNothing op); cbn [mapResult class rejected];
        exists url, init; (split; [exact Hcall|]); left; now exists reason.
    + destruct (ok res) eqn:Hok.
      * destruct (returnsNothing op) eqn:Hnothing; cbn [mapResult].
        -- exists url, init, res. now repeat split.
        -- destruct (json res) as [reason|decoded] eqn:Hjson;
             cbn [mapResult class rejected].
           ++ exists url, init. split; [exact Hcall|]. right.
              exists res, reason. now repeat split.
           ++ exists url, init, res.
              split; [exact Hcall|]. split; [exact Hanswer|].
              split; [exact Hok|]. now exists decoded.
      * assert (Hend : forall (B : Type) (f : B -> option string),
                  mapResult f
                    (inl (ChatworkError (status res) l) : JsError + B)
                  = inl (ChatworkError (status res) l)) by reflexivity.
        destruct (returnsNothing op); rewrite Hend; cbn [fst];
          rewrite class_ChatworkError; exists url, init, res, l;
          now repeat split.
Qed.

End Requests.

(** Without network, and with an answer that is no JSON: the reason of
    the rejection is what the method throws, after its one call. *)
Lemma result_is_decided_by_the_response_witness :
  let lost :=
    perform (engine := utcEngine) (constructor (mkOptions "t" offline))
      GetMe bareWorld in
  let unread :=
    perform (engine := utcEngine) (constructor (mkOptions "t" garbled))
      GetMe bareWorld in
  (fst lost = inl (mkError Rejected "TypeError" "Failed to fetch")
   /\ exists url init,
        oneCall lost bareWorld url init
        /\ ((exists reason,
                offline url init = inl reason
                /\ mkError Rejected "TypeError" "Failed to fetch"
                   = rejected reason)
            \/ (exists res reason,
                   offline url init = inr res
                   /\ ok res = true
                   /\ returnsNothing GetMe = false
                   /\ json res = inl reason
                   /\ mkError Rejected "TypeError" "Failed to fetch"
                      = rejected reason)))
  /\ (fst unread
      = inl (mkError Rejected "SyntaxError" "Unexpected end of JSON input")
      /\ exists url init,
           oneCall unread bareWorld url init
           /\ ((exists reason,
                   garbled url init = inl reason
                   /\ mkError Rejected "SyntaxError"
                        "Unexpected end of JSON input"
                      = rejected reason)
               \/ (exists res reason,
                      garbled url init = inr res
                      /\ ok res = true
                      /\ returnsNothing GetMe = false
                      /\ json res = inl reason
                      /\ mkError Rejected "SyntaxError"
                           "Unexpected end of JSON input"
                         = rejected reason))).
Proof.
  cbv zeta. split; (split; [reflexivity|]).
  - exact (result_is_decided_by_the_response (engine := utcEngine)
             (constructor (mkOptions "t" offline)) GetMe bareWorld).
  - exact (result_is_decided_by_the_response (engine := utcEngine)
             (constructor (mkOptions "t" garbled)) GetMe bareWorld).
Defined.

Lemma requests_are_authenticated_witness :
  lookup [("accept", "application/json"); ("x-chatworktoken", "secret")]
         "x-chatworktoken"
  = Some "secret".
Proof.
  exact (proj1 (proj2
    (requests_are_authenticated (engine := utcEngine)
       (mkOptions "secret" (answering 200)) GetMe bareWorld
       "https://api.chatwork.com/v2/me"
       (mkInit None
          [("accept", "application/json"); ("x-chatworktoken", "secret")]
          None)
       eq_refl))).
Defined.

(* ===================================================================== *)
(** ** The status of a task *)
(* ===================================================================== *)

Section TaskStatus.
Context {engine : JsEngine}.


End TaskStatus.


(* ===================================================================== *)
(** ** Files, rooms, members and links *)
(* ===================================================================== *)

Section Rooms.
Context {engine : JsEngine}.

(** X9: the download flag of [getRoomFile] is optional.  When the
    property is absent or undefined the query string is the one of the
    parameters as they are (none for an object without other property);
    any other value, null included, is sent as create_download_url=1 when
    truthy and create_download_url=0 when falsy. *)
Theorem getRoomFile_download_flag (this : ChatworkClient)
    (roomId fileId : value) (queryParams : object) (w : world) :
  truthy roomId = true ->
  truthy fileId = true ->
  let address (queryString : string) :=
    apiV2Endpoint ++ "/rooms/" ++ ToString roomId ++ "/files/"
      ++ ToString fileId ++ queryString in
  let init := mkInit None (DefaultHeaders this) None in
  let r := getRoomFile this roomId fileId queryParams w in
  let flag := if truthy (get queryParams "create_download_url")
              then "1" else "0" in
  (get queryParams "create_download_url" = VUndefined ->
   oneCall r w (address (queryStringFromParamsObject (Some queryParams))) init
   /\ (queryParams = [] \/ queryParams = [("create_download_url", VUndefined)]
       -> oneCall r w (address "") init))
  /\ (get queryParams "create_download_url" <> VUndefined ->
      (exists params,
          In ("create_download_url=" ++ flag) params
          /\ oneCall r w (address ("?" ++ String.concat "&" params)) init)
      /\ ((exists v, queryParams = [("create_download_url", v)]) ->
          oneCall r w (address ("?create_download_url=" ++ flag)) init)).
Proof.
  intros Hroom Hfile address init r flag. subst r.
  unfold getRoomFile, oneCall. rewrite Hroom, Hfile. cbn [negb].
  rewrite run_call_finish. cbn [snd calls]. split.
  - intros Hflag. rewrite Hflag. split; [reflexivity|].
    intros [-> | ->]; reflexivity.
  - intros Hflag. subst flag.
    destruct (get queryParams "create_download_url") as [| |b|n|s|l|tv|c|c]
      eqn:Hget; [contradiction| | | | | | | |];
      match goal with
      | |- context [set queryParams "create_download_url" (VStr ?f)] =>
          pose proof (definedParams_set queryParams "create_download_url" f)
            as Hin;
          (split;
           [ eexists; split; [exact Hin|];
             now rewrite (queryString_nonempty _ _ Hin)
           | intros [v ->]; cbn in Hget; subst v; reflexivity ])
      end.
Qed.

Lemma keys_formPairs (o : object) : map fst (formPairs o) = map fst o.
Proof.
  unfold formPairs, entries. induction o as [|[k v] o IH];
    [reflexivity | simpl; now rewrite IH].
Qed.

Lemma lookup_formPairs (o : object) (k : string) :
  In k (map fst o) ->
  lookup (formPairs o) k = Some (snd (entryValuesAsStrings (k, get o k))).
Proof.
  unfold formPairs, entries. induction o as [|[k' v'] o IH]; simpl.
  - intros [].
  - destruct (String.eqb_spec k' k) as [->|Hne]; [reflexivity|].
    intros [H|H]; [contradiction | now apply IH].
Qed.

Lemma lookup_formPairs_absent (o : object) (k : string) :
  ~ In k (map fst o) -> lookup (formPairs o) k = None.
Proof.
  unfold formPairs, entries. induction o as [|[k' v'] o IH]; simpl.
  - reflexivity.
  - intros Hnot. destruct (String.eqb_spec k' k) as [->|Hne].
    + exfalso. apply Hnot. now left.
    + apply IH. intros H. apply Hnot. now right.
Qed.

(** X10: [putRoom] checks the room id and nothing of the form: every
    property of formData becomes a field of the form body, in the order
    of the object and under its own key, none is dropped and none is
    added (an empty object gives an empty body); a property whose value
    is undefined or null is sent as the text undefined or null. *)
Theorem putRoom_sends_every_property (this : ChatworkClient) (roomId : value)
    (formData : object) (w : world) :
  truthy roomId = true ->
  let pairs := formPairs formData in
  oneCall (putRoom this roomId formData w) w
    (apiV2Endpoint ++ "/rooms/" ++ ToString roomId)
    (mkInit (Some "put") (FormDataHeaders this)
            (Some (URLSearchParams pairs)))
  /\ map fst pairs = map fst formData
  /\ (forall k, In k (map fst formData) ->
      (get formData k = VUndefined -> lookup pairs k = Some "undefined")
      /\ (get formData k = VNull -> lookup pairs k = Some "null")
      /\ (forall s, get formData k = VStr s -> lookup pairs k = Some s))
  /\ (forall k, ~ In k (map fst formData) -> lookup pairs k = None).
Proof.
  intros Hroom pairs. unfold putRoom, oneCall. rewrite Hroom. cbn [negb].
  rewrite run_call_finish. split; [reflexivity|].
  split; [apply keys_formPairs|]. split.
  - intros k Hk. unfold pairs. rewrite (lookup_formPairs _ _ Hk).
    repeat split; intros; now rewrite H.
  - intros k Hk. now apply lookup_formPairs_absent.
Qed.

(** X11: [putRoomMembers] requires the administrators only, and joins
    each of the three lists that is an array: the request carries the
    administrators, the members and the read-only members joined by
    commas.  An array passes the presence check even when it is empty,
    and is then sent as the empty string, while the empty string itself
    is refused as a missing parameter. *)
Theorem putRoomMembers_joins_every_list (this : ChatworkClient)
    (roomId : value) (formData : object) (admins : list value) (w : world) :
  truthy roomId = true ->
  get formData "members_admin_ids" = VArr admins ->
  (exists pairs,
      oneCall (putRoomMembers this roomId formData w) w
        (apiV2Endpoint ++ "/rooms/" ++ ToString roomId ++ "/members")
        (mkInit (Some "put") (FormDataHeaders this)
                (Some (URLSearchParams pairs)))
      /\ lookup pairs "members_admin_ids" = Some (join admins ",")
      /\ (forall members,
             get formData "members_member_ids" = VArr members ->
             lookup pairs "members_member_ids" = Some (join members ","))
      /\ (forall readers,
             get formData "members_readonly_ids" = VArr readers ->
             lookup pairs "members_readonly_ids" = Some (join readers ",")))
  /\ join [] "," = ""
  /\ putRoomMembers this roomId
       (set formData "members_admin_ids" (VStr "")) w
     = (inl (MissingParameterError "formData.members_admin_ids"), w).
Proof.
  intros Hroom Hadmins. split; [|split; [reflexivity|]].
  - unfold putRoomMembers, oneCall. rewrite Hroom, Hadmins. cbn [negb truthy].
    rewrite run_bind, run_joinField, run_bind, run_joinField,
      run_bind, run_joinField, run_call_finish.
    eexists. split; [cbn [snd calls]; now rewrite !calls_afterJoin|].
    unfold formParamsOf. split; [|split].
    + rewrite !formPairs_joinedField_other by discriminate.
      now apply formPairs_joinedField_same.
    + intros members Hmembers.
      rewrite formPairs_joinedField_other by discriminate.
      apply formPairs_joinedField_same.
      now rewrite get_joinedField_other by discriminate.
    + intros readers Hreaders.
      apply formPairs_joinedField_same.
      now rewrite !get_joinedField_other by discriminate.
  - unfold putRoomMembers. rewrite Hroom, get_set_same. reflexivity.
Qed.

(** X12: the four link operations of a room address the same URL and
    differ by their method; creating and updating the link send the same
    form body, in which need_acceptance is always present, as 1 for a
    truthy value and as 0 for a falsy or absent one. *)
Theorem link_operations_share_one_address (this : ChatworkClient)
    (roomId : value) (formData : object) (w : world) :
  truthy roomId = true ->
  let url := apiV2Endpoint ++ "/rooms/" ++ ToString roomId ++ "/link" in
  let flag := if truthy (get formData "need_acceptance") then "1" else "0" in
  exists pairs,
    lookup pairs "need_acceptance" = Some flag
    /\ oneCall (getRoomLink this roomId w) w url
         (mkInit None (DefaultHeaders this) None)
    /\ oneCall (postRoomLink this roomId formData w) w url
         (mkInit (Some "post") (FormDataHeaders this)
                 (Some (URLSearchParams pairs)))
    /\ oneCall (putRoomLink this roomId formData w) w url
         (mkInit (Some "put") (FormDataHeaders this)
                 (Some (URLSearchParams pairs)))
    /\ oneCall (deleteRoomLink this roomId w) w url
         (mkInit (Some "delete") (DefaultHeaders this) None).
Proof.
  intros Hroom url flag.
  exists (formPairs (set formData "need_acceptance" (VStr flag))).
  unfold getRoomLink, postRoomLink, putRoomLink, deleteRoomLink, oneCall.
  rewrite Hroom. cbn [negb]. rewrite !run_call_finish.
  split; [now rewrite formPairs_set_same|]. repeat split.
Qed.

End Rooms.

(** Asking for file 9 of room 42 with a download link. *)
Lemma getRoomFile_download_flag_witness :
  oneCall
    (getRoomFile (engine := utcEngine)
       (constructor (mkOptions "t" (answering 200)))
       (VNum (NInt 42)) (VNum (NInt 9))
       [("create_download_url", VBool true)] bareWorld)
    bareWorld
    "https://api.chatwork.com/v2/rooms/42/files/9?create_download_url=1"
    (mkInit None [("accept", "application/json"); ("x-chatworktoken", "t")]
            None).
Proof.
  refine (proj2 (proj2
    (getRoomFile_download_flag (engine := utcEngine)
       (constructor (mkOptions "t" (answering 200)))
       (VNum (NInt 42)) (VNum (NInt 9))
       [("create_download_url", VBool true)] bareWorld eq_refl eq_refl)
    _) _).
  - discriminate.
  - now exists (VBool true).
Defined.

(** Renaming room 42 without a description. *)
Lemma putRoom_sends_every_property_witness :
  lookup
    (formPairs (engine := utcEngine)
       [("name", VStr "team"); ("description", VUndefined)])
    "description"
  = Some "undefined".
Proof.
  refine (proj1 (proj1 (proj2 (proj2
    (putRoom_sends_every_property (engine := utcEngine)
       (constructor (mkOptions "t" (answering 200))) (VNum (NInt 42))
       [("name", VStr "team"); ("description", VUndefined)] bareWorld
       eq_refl))) "description" _) eq_refl).
  simpl. tauto.
Defined.

(** Emptying the administrators of room 42. *)
Lemma putRoomMembers_joins_every_list_witness :
  exists pairs,
    oneCall
      (putRoomMembers (engine := utcEngine)
         (constructor (mkOptions "t" (answering 200))) (VNum (NInt 42))
         [("members_admin_ids", VArr [])] bareWorld)
      bareWorld "https://api.chatwork.com/v2/rooms/42/members"
      (mkInit (Some "put")
         (FormDataHeaders (constructor (mkOptions "t" (answering 200))))
         (Some (URLSearchParams pairs)))
    /\ lookup pairs "members_admin_ids" = Some "".
Proof.
  destruct (proj1
    (putRoomMembers_joins_every_list (engine := utcEngine)
       (constructor (mkOptions "t" (answering 200))) (VNum (NInt 42))
       [("members_admin_ids", VArr [])] [] bareWorld eq_refl eq_refl))
    as (pairs & Hcall & Hadmins & _).
  exists pairs. split; [exact Hcall | exact Hadmins].
Defined.

Lemma link_operations_share_one_address_witness :
  exists pairs,
    lookup pairs "need_acceptance" = Some "0"
    /\ oneCall
         (postRoomLink (engine := utcEngine)
            (constructor (mkOptions "t" (answering 200))) (VNum (NInt 42))
            [("code", VStr "join-us")] bareWorld)
         bareWorld "https://api.chatwork.com/v2/rooms/42/link"
         (mkInit (Some "post")
            (FormDataHeaders (constructor (mkOptions "t" (answering 200))))
            (Some (URLSearchParams pairs))).
Proof.
  destruct (link_operations_share_one_address (engine := utcEngine)
              (constructor (mkOptions "t" (answering 200))) (VNum (NInt 42))
              [("code", VStr "join-us")] bareWorld eq_refl)
    as (pairs & Hflag & _ & Hpost & _).
  exists pairs. split; [exact Hflag | exact Hpost].
Defined.

(* ===================================================================== *)
(** ** Reading an error back *)
(* ===================================================================== *)

Lemma decimal_is_read_back (z : Z) :
  option_map Z.of_int (NilZero.int_of_string (decimal z)) = Some z.
Proof.
  unfold decimal. destruct (Z.eq_dec z 0) as [->|Hz]; [reflexivity|].
  rewrite NilZero.isi.
  - simpl. f_equal. apply DecimalZ.of_to.
  - intros H. apply (f_equal Z.of_int) in H.
    rewrite DecimalZ.of_to in H. now apply Hz.
  - intros H. apply (f_equal Z.of_int) in H.
    rewrite DecimalZ.of_to in H. now apply Hz.
Qed.

(** X13: the name of a [ChatworkError] tells its status code: reading the
    name back gives the status the error was built from, for the five
    named errors and for every other status, whose numeral the name of
    the unknown error carries.  Hence errors of different statuses have
    different names. *)
Theorem status_is_read_back_from_the_name (statusCode statusCode' : Z)
    (resourceType resourceType' : option string) :
  statusOfName (name (ChatworkError statusCode resourceType))
  = Some statusCode
  /\ (name (ChatworkError statusCode resourceType)
      = name (ChatworkError statusCode' resourceType') ->
      statusCode = statusCode').
Proof.
  assert (Hread : forall s l,
             statusOfName (name (ChatworkError s l)) = Some s).
  { intros s l. unfold ChatworkError.
    destruct (Z.eqb_spec s 400) as [->|_]; [reflexivity|].
    destruct (Z.eqb_spec s 401) as [->|_]; [reflexivity|].
    destruct (Z.eqb_spec s 403) as [->|_]; [reflexivity|].
    destruct (Z.eqb_spec s 404) as [->|_]; [reflexivity|].
    destruct (Z.eqb_spec s 429) as [->|_]; [reflexivity|].
    cbn [name]. unfold statusOfName.
    cbn [String.append String.eqb Ascii.eqb Bool.eqb andb dropPrefix].
    apply decimal_is_read_back. }
  split; [apply Hread|].
  intros Hname. apply (f_equal statusOfName) in Hname.
  rewrite !Hread in Hname. now injection Hname.
Qed.

Lemma status_is_read_back_from_the_name_witness :
  statusOfName "UnknownChatworkError 503" = Some 503
  /\ 404 = 404.
Proof.
  split.
  - exact (proj1 (status_is_read_back_from_the_name 503 503 None None)).
  - exact (proj2 (status_is_read_back_from_the_name 404 404
                    (Some "タスク") None) eq_refl).
Defined.

(* ===================================================================== *)
(** ** Clients *)
(* ===================================================================== *)

(** The three ends of [create], by the source that holds the token. *)
Lemma run_create (options : option ChatworkClientOptions) (w : world) :
  let given :=
    match options with
    | Some o => o
    | None => mkOptions "" (globalFetch w)
    end in
  let fromEnv := lookup (env w) "CW_API_TOKEN" in
  let fromFile :=
    lookup (match dotenv w with Some kv => kv | None => [] end)
           "CW_API_TOKEN" in
  let noArgument :=
    ("error",
     "Chatwork APIトークンがChatworkClientコンストラクタに渡されていません。環境変数を確認中…") in
  let noVariable :=
    ("error",
     "CW_API_TOKEN環境変数が定義されていません。カレントディレクトリに.envファイルがあるか確認中…") in
  let after lines :=
    mkWorld (env w) (dotenv w) (globalFetch w) (console w ++ lines)%list
            (calls w) in
  create options w
  = if (token given =? "")%string then
      if noString fromEnv then
        if noString fromFile then
          (inl (Error noTokenMessage), after [noArgument; noVariable])
        else
          (inr (constructor
                  (mkOptions (match fromFile with Some t => t | None => "" end)
                             (fetchImpl given))),
           after [noArgument; noVariable])
      else
        (inr (constructor
                (mkOptions (match fromEnv with Some t => t | None => "" end)
                           (fetchImpl given))),
         after [noArgument])
    else (inr (constructor given), w).
Proof.
  cbv zeta. unfold create. cbn -[noString].
  set (fromFile :=
         lookup (match dotenv w with Some kv => kv | None => [] end)
                "CW_API_TOKEN").
  set (fromEnv := lookup (env w) "CW_API_TOKEN").
  destruct (token _ =? "")%string; cbn -[noString]; [|reflexivity].
  fold fromEnv. destruct (noString fromEnv) eqn:Henv; cbn -[noString].
  - fold fromFile. destruct (noString fromFile); cbn -[noString];
      now rewrite <- app_assoc.
  - fold fromEnv. now rewrite Henv.
Qed.

(** X14: a client that [create] returns holds a non-empty token, which
    its two header sets carry next to the JSON accept header, the form
    headers being the default ones followed by the form content-type.
    Creating it wrote at most two lines to the console, none when the
    token was passed, and touched nothing else of the runtime; creating
    a client again from its token and transport gives the same client
    and writes nothing. *)
Theorem created_clients_hold_a_token (options : option ChatworkClientOptions)
    (w w' : world) (c : ChatworkClient) :
  create options w = (inr c, w') ->
  client_token c <> ""
  /\ DefaultHeaders c
     = [("accept", "application/json"); ("x-chatworktoken", client_token c)]
  /\ FormDataHeaders c
     = (DefaultHeaders c
          ++ [("content-type", "application/x-www-form-urlencoded")])%list
  /\ quiet w w'
  /\ (exists lines,
         console w' = (console w ++ lines)%list
         /\ (length lines <= 2)%nat
         /\ (forall o, options = Some o -> token o <> "" -> lines = []))
  /\ create (Some (mkOptions (client_token c) (client_fetch c))) w'
     = (inr c, w').
Proof.
  rewrite run_create. cbv zeta.
  set (given := match options with
                | Some o => o
                | None => mkOptions "" (globalFetch w)
                end).
  assert (Hagain : forall t f w1,
             t <> "" ->
             create (Some (mkOptions t f)) w1
             = (inr (constructor (mkOptions t f)), w1)).
  { intros t f w1 Ht. rewrite run_create. cbn [token].
    now destruct (String.eqb_spec t ""). }
  assert (Hsome : forall s : option string,
             noString s = false ->
             match s with Some t => t | None => "" end <> "").
  { intros [t|]; cbn; [|discriminate].
    now destruct (String.eqb_spec t ""). }
  set (fromFile :=
         lookup (match dotenv w with Some kv => kv | None => [] end)
                "CW_API_TOKEN").
  set (fromEnv := lookup (env w) "CW_API_TOKEN").
  destruct (String.eqb_spec (token given) "") as [Hempty|Hgiven].
  - destruct (noString fromEnv) eqn:Henv.
    + destruct (noString fromFile) eqn:Hfile; [discriminate|].
      intros [= <- <-]. apply Hsome in Hfile.
      split; [exact Hfile|]. split; [reflexivity|]. split; [reflexivity|].
      split; [repeat split|]. split.
      * eexists. split; [reflexivity|]. split; [simpl; lia|].
        intros o -> Ho. now elim Ho.
      * now apply Hagain.
    + intros [= <- <-]. apply Hsome in Henv.
      split; [exact Henv|]. split; [reflexivity|]. split; [reflexivity|].
      split; [repeat split|]. split.
      * eexists. split; [reflexivity|]. split; [simpl; lia|].
        intros o -> Ho. now elim Ho.
      * now apply Hagain.
  - intros [= <- <-].
    split; [exact Hgiven|]. split; [reflexivity|]. split; [reflexivity|].
    split; [apply quiet_refl|]. split.
    + exists []. split; [now rewrite app_nil_r|]. split; [simpl; lia|].
      reflexivity.
    + destruct given as [t f]. now apply Hagain.
Qed.

(** A client created from the environment variable alone. *)
Lemma created_clients_hold_a_token_witness :
  client_token (constructor (mkOptions "abc" (answering 200))) <> "".
Proof.
  exact (proj1
    (created_clients_hold_a_token None
       (mkWorld [("CW_API_TOKEN", "abc")] None (answering 200) [] [])
       (mkWorld [("CW_API_TOKEN", "abc")] None (answering 200)
          [("error",
            "Chatwork APIトークンがChatworkClientコンストラクタに渡されていません。環境変数を確認中…")]
          [])
       (constructor (mkOptions "abc" (answering 200))) eq_refl)).
Defined.

(* ===================================================================== *)
(** ** Limits that are no dates, filters and labels *)
(* ===================================================================== *)

Section Edges.
Context {engine : JsEngine}.

(** X15: what [postRoomTasks] does with a limit that is no date, when no
    limit type is supplied.  A string the engine cannot parse, or a
    number out of the range of dates, is not refused: the task is sent
    with the limit NaN and the limit type time.  A truthy limit that is
    neither a [Date] nor a string nor a number throws, before any call,
    the InvalidParameter error that names formData.limit and the type of
    the value.  A falsy limit counts as no limit: the limit type is none,
    and a limit property that is present is sent as it is. *)
Theorem postRoomTasks_limits_that_are_no_dates (this : ChatworkClient)
    (roomId : value) (formData : object) (w : world) :
  truthy roomId = true ->
  truthy (get formData "body") = true ->
  truthy (get formData "to_ids") = true ->
  truthy (get formData "limit_type") = false ->
  let r := postRoomTasks this roomId formData w in
  let sends (limit : option string) (limit_type : string) :=
    exists pairs,
      oneCall r w (apiV2Endpoint ++ "/rooms/" ++ ToString roomId ++ "/tasks")
        (mkInit (Some "post") (FormDataHeaders this)
                (Some (URLSearchParams pairs)))
      /\ lookup pairs "limit" = limit
      /\ lookup pairs "limit_type" = Some limit_type in
  (limitDate (get formData "limit") None -> sends (Some "NaN") "time")
  /\ (truthy (get formData "limit") = true ->
      isDate (get formData "limit") = false ->
      typeof (get formData "limit") <> "string" ->
      typeof (get formData "limit") <> "number" ->
      r = (inl (InvalidParameterError "formData.limit"
                  (typeof (get formData "limit")) "Dateオブジェクト"), w))
  /\ (truthy (get formData "limit") = false ->
      sends (lookup (formPairs formData) "limit") "none").
Proof.
  intros Hroom Hbody Hids Htype r sends. split; [|split].
  - intros Hlimit.
    destruct (run_normalizeLimit_given formData None w Hlimit)
      as (formData1 & Hnorm & Hdate & Hsame).
    assert (Hdefault :
              defaultLimitType formData1 w
              = (inr (set formData1 "limit_type" (VStr "time")), w)).
    { rewrite (run_defaultLimitType_date formData1 None);
        [reflexivity | | exact Hdate].
      rewrite Hsame by discriminate. exact Htype. }
    destruct (proj1 (run_postRoomTasks this roomId formData formData1 "time"
                       w Hroom Hbody Hids Hnorm Hdefault))
      as (pairs & Hcall & Htime & Hnan); [simpl; tauto|].
    exists pairs. split; [exact Hcall|]. split; [|exact Htime].
    exact (Hnan None Hdate).
  - intros Htruthy Hdate Hstring Hnumber. subst r.
    unfold postRoomTasks. rewrite Hroom, Hbody, Hids. cbn [negb].
    rewrite run_bind. unfold normalizeLimit.
    rewrite Htruthy, Hdate. cbn [negb andb].
    destruct (String.eqb_spec (typeof (get formData "limit")) "string");
      [contradiction|].
    destruct (String.eqb_spec (typeof (get formData "limit")) "number");
      [contradiction|].
    cbn [orb]. now rewrite Hdate.
  - intros Hnone. subst r sends. cbv beta.
    unfold postRoomTasks. rewrite Hroom, Hbody, Hids. cbn [negb].
    rewrite run_bind, run_normalizeLimit_absent by exact Hnone.
    rewrite run_bind, run_defaultLimitType_none by assumption.
    rewrite get_set_same.
    change (isValidLimitType (VStr "none")) with true. cbn [negb].
    rewrite run_bind, run_joinField, run_bind, run_encodeLimit_absent.
    + rewrite run_call_finish. eexists. unfold oneCall.
      split; [cbn [snd calls]; now rewrite calls_afterJoin|].
      unfold formParamsOf.
      rewrite !formPairs_joinedField_other by discriminate.
      rewrite formPairs_set_same.
      now rewrite formPairs_set_other by discriminate.
    + rewrite get_joinedField_other by discriminate.
      now rewrite get_set_other by discriminate.
Qed.

(** X16: [getRoomTasks] drops a status filter that is absent or not
    open or done after trimming and lower-casing, and only that filter:
    the query string is the one of the parameter object without its
    status property, whose other properties are unchanged, and a warning
    that quotes the refused status (undefined when none was given) is
    written to the console.  A valid status is sent in normal form in
    the place the property had. *)
Theorem getRoomTasks_keeps_other_filters (this : ChatworkClient)
    (roomId : value) (queryParams : object) (w : world) :
  truthy roomId = true ->
  let init := mkInit None (DefaultHeaders this) None in
  let address (o : object) :=
    apiV2Endpoint ++ "/rooms/" ++ ToString roomId ++ "/tasks"
      ++ queryStringFromParamsObject (Some o) in
  let r := getRoomTasks this roomId queryParams w in
  let dropped (refused : string) :=
    oneCall r w (address (delete queryParams "status")) init
    /\ console (snd r)
       = (console w
            ++ [("warn",
                 ("Unknown task status " ++ dquote ++ refused ++ dquote
                    ++ ", using default (undefined)")%string)])%list in
  (get queryParams "status" = VUndefined \/ get queryParams "status" = VNull
   -> dropped "undefined")
  /\ (forall s, get queryParams "status" = VStr s ->
      let normal := toLowerCase (trim s) in
      (normal = "open" \/ normal = "done" ->
       oneCall r w (address (set queryParams "status" (VStr normal))) init
       /\ console (snd r) = console w)
      /\ (normal <> "open" -> normal <> "done" -> dropped normal))
  /\ get (delete queryParams "status") "status" = VUndefined
  /\ (forall k, k <> "status" ->
      get (delete queryParams "status") k = get queryParams k).
Proof.
  intros Hroom init address r dropped. subst r dropped. cbv beta.
  unfold oneCall. split; [|split; [|split]].
  - intros Hstatus.
    rewrite (run_getRoomTasks this roomId queryParams VUndefined w Hroom)
      by (destruct Hstatus as [-> | ->]; reflexivity).
    change (isValidTaskStatus VUndefined) with false. cbv iota.
    split; reflexivity.
  - intros s Hstatus. set (normal := toLowerCase (trim s)).
    assert (Htrim :
              trimLower "queryParams.status" (get queryParams "status") w
              = (inr (VStr normal), w)) by now rewrite Hstatus.
    rewrite (run_getRoomTasks this roomId queryParams (VStr normal) w
               Hroom Htrim).
    split.
    + intros Hvalid.
      rewrite (proj2 (isValidTaskStatus_spec normal) Hvalid).
      split; reflexivity.
    + intros Hopen Hdone.
      destruct (isValidTaskStatus (VStr normal)) eqn:Hvalid;
        [apply isValidTaskStatus_spec in Hvalid; tauto|].
      split; reflexivity.
  - apply get_delete_same.
  - intros k Hk. now apply get_delete_other.
Qed.

End Edges.

(** A task whose limit is a string that is no date. *)
Lemma postRoomTasks_limits_that_are_no_dates_witness :
  exists pairs,
    oneCall
      (postRoomTasks (engine := utcEngine)
         (constructor (mkOptions "t" (answering 200))) (VNum (NInt 42))
         [("body", VStr "report"); ("to_ids", VStr "7");
          ("limit", VStr "tomorrow")] bareWorld)
      bareWorld "https://api.chatwork.com/v2/rooms/42/tasks"
      (mkInit (Some "post")
         (FormDataHeaders (constructor (mkOptions "t" (answering 200))))
         (Some (URLSearchParams pairs)))
    /\ lookup pairs "limit" = Some "NaN"
    /\ lookup pairs "limit_type" = Some "time".
Proof.
  refine (proj1
    (postRoomTasks_limits_that_are_no_dates (engine := utcEngine)
       (constructor (mkOptions "t" (answering 200))) (VNum (NInt 42))
       [("body", VStr "report"); ("to_ids", VStr "7");
        ("limit", VStr "tomorrow")] bareWorld
       eq_refl eq_refl eq_refl eq_refl) _).
  exact (limit_of_string (engine := utcEngine) "tomorrow"
           ltac:(discriminate)).
Defined.

(** The tasks of room 42 assigned to account 7, with a status that is
    none. *)
Lemma getRoomTasks_keeps_other_filters_witness :
  oneCall
    (getRoomTasks (engine := utcEngine)
       (constructor (mkOptions "t" (answering 200))) (VNum (NInt 42))
       [("status", VStr "closed"); ("account_id", VNum (NInt 7))] bareWorld)
    bareWorld "https://api.chatwork.com/v2/rooms/42/tasks?account_id=7"
    (mkInit None [("accept", "application/json"); ("x-chatworktoken", "t")]
            None).
Proof.
  refine (proj1 (proj2 (proj1 (proj2
    (getRoomTasks_keeps_other_filters (engine := utcEngine)
       (constructor (mkOptions "t" (answering 200))) (VNum (NInt 42))
       [("status", VStr "closed"); ("account_id", VNum (NInt 7))] bareWorld
       eq_refl)) "closed" eq_refl) _ _)); discriminate.
Defined.

(* ===================================================================== *)
(** ** The other presence checks and resource labels *)
(* ===================================================================== *)

Section OtherChecks.
Context {engine : JsEngine}.

(** X17: at status 404 an operation that addresses one item by its id
    names the kind of the item in the message of its NotFound error: a
    message, a task, a file or a contact request; an operation on a room
    or on a list of a room gives the generic resource label. *)
Theorem not_found_names_the_item (this : ChatworkClient)
    (roomId itemId : value) (formData queryParams : object) (w : world) :
  truthy roomId = true ->
  truthy itemId = true ->
  get formData "body" = VStr "done" ->
  (forall url init,
      exists res,
        client_fetch this url init = inr res
        /\ ok res = false /\ status res = 404) ->
  let notFound (label : string) : JsError + string :=
    inl (mkError ChatworkErrorClass "NotFoundError" (label ++ "が存在しない")) in
  fst (getRoomMessage this roomId itemId w) = notFound "メッセージ"
  /\ fst (getRoomTask this roomId itemId w) = notFound "タスク"
  /\ fst (putRoomTaskStatus this roomId itemId formData w) = notFound "タスク"
  /\ fst (getRoomFile this roomId itemId queryParams w) = notFound "ファイル"
  /\ fst (putIncomingRequests this itemId w) = notFound "コンタクト"
  /\ fst (deleteIncomingRequest this itemId w)
     = inl (mkError ChatworkErrorClass "NotFoundError" "コンタクトが存在しない")
  /\ fst (getRoom this roomId w) = notFound "リソース"
  /\ fst (getRoomMembers this roomId w) = notFound "リソース"
  /\ fst (getRoomMessages this roomId queryParams w) = notFound "リソース"
  /\ fst (getRoomFiles this roomId (Some queryParams) w) = notFound "リソース"
  /\ fst (getRoomLink this roomId w) = notFound "リソース".
Proof.
  intros Hroom Hitem Hbody Hanswer notFound.
  assert (Hfinish : forall url init l w1,
             fst ((res <- call (client_fetch this) url init ;;
                   finish res l) w1)
             = inl (ChatworkError 404 l)).
  { intros url init l w1. rewrite run_call_finish. cbn [fst].
    apply outcome_404, Hanswer. }
  assert (HfinishVoid : forall url init l w1,
             fst ((res <- call (client_fetch this) url init ;;
                   finishVoid res l) w1)
             = inl (ChatworkError 404 l)).
  { intros url init l w1. rewrite run_call_finishVoid. cbn [fst].
    apply outcomeVoid_404, Hanswer. }
  assert (Hstatus :
            fst (putRoomTaskStatus this roomId itemId formData w)
            = notFound "タスク").
  { unfold putRoomTaskStatus. rewrite Hroom, Hitem. cbn [negb].
    rewrite run_bind, Hbody. cbn [trimLower ret Monad_M].
    rewrite get_set_same.
    rewrite (toLowerCase_of_ascii (trim "done") "done" eq_refl eq_refl).
    change (truthy (VStr "done")) with true.
    change (isValidTaskStatus (VStr "done")) with true.
    cbn [negb]. now rewrite Hfinish. }
  unfold getRoomMessage, getRoomTask, getRoomFile,
    putIncomingRequests, deleteIncomingRequest, getRoom, getRoomMembers,
    getRoomMessages, getRoomFiles, getRoomLink.
  rewrite Hroom, Hitem. cbn [negb]. cbv zeta.
  rewrite !Hfinish, HfinishVoid, Hstatus.
  repeat split.
Qed.

(** X18: the presence checks of the other operations, each before the
    call: a falsy room id or request id, or after a truthy room id a
    falsy message id, task id or file id, the missing action of
    [deleteRooms] or the missing administrators of [putRoomMembers],
    throws the MissingParameter error that names it and leaves the
    runtime as it was. *)
Theorem other_checked_parameters_throw_before_any_call
    (this : ChatworkClient) (roomId itemId : value)
    (formData queryParams : object) (w : world) :
  let missing {A : Type} (parameter : string) : (JsError + A) * world :=
    (inl (MissingParameterError parameter), w) in
  (truthy roomId = false ->
   getRoom this roomId w = missing "roomId"
   /\ putRoom this roomId formData w = missing "roomId"
   /\ deleteRooms this roomId formData w = missing "roomId"
   /\ getRoomMembers this roomId w = missing "roomId"
   /\ putRoomMembers this roomId formData w = missing "roomId"
   /\ getRoomMessage this roomId itemId w = missing "roomId"
   /\ getRoomTask this roomId itemId w = missing "roomId"
   /\ putRoomTaskStatus this roomId itemId formData w = missing "roomId"
   /\ getRoomFiles this roomId (Some queryParams) w = missing "roomId"
   /\ getRoomFile this roomId itemId queryParams w = missing "roomId"
   /\ getRoomLink this roomId w = missing "roomId"
   /\ postRoomLink this roomId formData w = missing "roomId"
   /\ putRoomLink this roomId formData w = missing "roomId"
   /\ deleteRoomLink this roomId w = missing "roomId")
  /\ (truthy itemId = false ->
      putIncomingRequests this itemId w = missing "requestId"
      /\ deleteIncomingRequest this itemId w = missing "requestId")
  /\ (truthy roomId = true ->
      (truthy itemId = false ->
       getRoomMessage this roomId itemId w = missing "messageId"
       /\ getRoomTask this roomId itemId w = missing "taskId"
       /\ putRoomTaskStatus this roomId itemId formData w = missing "taskId"
       /\ getRoomFile this roomId itemId queryParams w = missing "fileId")
      /\ (truthy (get formData "action_type") = false ->
          deleteRooms this roomId formData w = missing "formData.action_type")
      /\ (truthy (get formData "members_admin_ids") = false ->
          putRoomMembers this roomId formData w
          = missing "formData.members_admin_ids")).
Proof.
  cbv zeta.
  unfold getRoom, putRoom, deleteRooms, getRoomMembers, putRoomMembers,
    getRoomMessage, getRoomTask, putRoomTaskStatus, getRoomFiles,
    getRoomFile, getRoomLink, postRoomLink, putRoomLink, deleteRoomLink,
    putIncomingRequests, deleteIncomingRequest.
  repeat (split || intro);
    repeat match goal with
           | H : truthy _ = _ |- _ => try rewrite H; clear H
           end;
    reflexivity.
Qed.

End OtherChecks.

Lemma not_found_names_the_item_witness :
  fst (getRoomTask (engine := utcEngine)
         (constructor (mkOptions "t" (answering 404)))
         (VNum (NInt 42)) (VNum (NInt 7)) bareWorld)
  = inl (mkError ChatworkErrorClass "NotFoundError" "タスクが存在しない").
Proof.
  exact (proj1 (proj2
    (not_found_names_the_item (engine := utcEngine)
       (constructor (mkOptions "t" (answering 404)))
       (VNum (NInt 42)) (VNum (NInt 7)) [("body", VStr "done")] []
       bareWorld eq_refl eq_refl eq_refl
       (fun _ _ =>
          ex_intro _ (mkResponse false 404 (inr "{}"))
            (conj eq_refl (conj eq_refl eq_refl)))))).
Defined.

Lemma other_checked_parameters_throw_before_any_call_witness :
  deleteRooms (engine := utcEngine)
    (constructor (mkOptions "t" (answering 200))) (VNum (NInt 42)) []
    bareWorld
  = (inl (MissingParameterError "formData.action_type"), bareWorld).
Proof.
  exact (proj1 (proj2 (proj2 (proj2
    (other_checked_parameters_throw_before_any_call (engine := utcEngine)
       (constructor (mkOptions "t" (answering 200)))
       (VNum (NInt 42)) VUndefined [] [] bareWorld)) eq_refl)) eq_refl).
Defined.

(* ===================================================================== *)
(** ** Uploads *)
(* ===================================================================== *)

Section Uploads.
Context {engine : JsEngine}.

(** X19: [postRoomFiles] sends a form of two fields, the message and then
    the file.  A byte buffer is wrapped into a blob without media type and
    without name: its file part carries the bytes, an empty type and the
    file name blob, as the part of an unnamed blob of these bytes without
    type does, and the two requests are the same.  A blob that is passed
    keeps its own type, and a file its own type and name.  The message is
    not checked: a message that is undefined is sent as the text
    undefined. *)
Theorem postRoomFiles_wraps_byte_buffers (this : ChatworkClient)
    (roomId : value) (formData : object) (content : string) (w : world) :
  truthy roomId = true ->
  let sends (message : string) (file : FormDataEntryValue) :=
    oneCall (postRoomFiles this roomId formData w) w
      (apiV2Endpoint ++ "/rooms/" ++ ToString roomId ++ "/files")
      (mkInit (Some "post") (FormDataHeaders this)
         (Some (FormData [("message", TextEntry message); ("file", file)]))) in
  (forall m,
      get formData "message" = VStr m
      \/ (get formData "message" = VUndefined /\ m = "undefined") ->
      (get formData "file" = VUint8Array content ->
       sends m (FileEntry content "" "blob"))
      /\ (forall type,
            get formData "file" = VBlob content type None ->
            sends m (FileEntry content type "blob"))
      /\ (forall type filename,
            get formData "file" = VBlob content type (Some filename) ->
            sends m (FileEntry content type filename)))
  /\ postRoomFiles this roomId
       (set formData "file" (VUint8Array content)) w
     = postRoomFiles this roomId
         (set formData "file" (VBlob content "" None)) w.
Proof.
  intros Hroom sends. subst sends. cbv beta.
  unfold postRoomFiles, oneCall. rewrite Hroom, !get_set_same.
  cbn [negb truthy]. split.
  - intros m Hm.
    assert (Hmessage : append [] "message" (get formData "message")
                       = [("message", TextEntry m)])
      by (destruct Hm as [-> | [-> ->]]; reflexivity).
    repeat split; intros; rewrite H; cbn [negb truthy];
      rewrite run_call_finish, Hmessage; reflexivity.
  - assert (Hmessage :
              get (set formData "file" (VUint8Array content)) "message"
              = get (set formData "file" (VBlob content "" None)) "message")
      by (now rewrite !get_set_other by discriminate).
    now rewrite Hmessage.
Qed.

End Uploads.

(** Three bytes uploaded to room 42 from a buffer, and a text file. *)
Lemma postRoomFiles_wraps_byte_buffers_witness :
  oneCall
    (postRoomFiles (engine := utcEngine)
       (constructor (mkOptions "t" (answering 200))) (VNum (NInt 42))
       [("file", VUint8Array "abc"); ("message", VStr "notes")] bareWorld)
    bareWorld "https://api.chatwork.com/v2/rooms/42/files"
    (mkInit (Some "post")
       (FormDataHeaders (constructor (mkOptions "t" (answering 200))))
       (Some (FormData [("message", TextEntry "notes");
                        ("file", FileEntry "abc" "" "blob")])))
  /\ oneCall
       (postRoomFiles (engine := utcEngine)
          (constructor (mkOptions "t" (answering 200))) (VNum (NInt 42))
          [("file", VBlob "abc" "text/plain" (Some "notes.txt"));
           ("message", VStr "notes")] bareWorld)
       bareWorld "https://api.chatwork.com/v2/rooms/42/files"
       (mkInit (Some "post")
          (FormDataHeaders (constructor (mkOptions "t" (answering 200))))
          (Some (FormData [("message", TextEntry "notes");
                           ("file",
                            FileEntry "abc" "text/plain" "notes.txt")]))).
Proof.
  split.
  - exact (proj1 (proj1
      (postRoomFiles_wraps_byte_buffers (engine := utcEngine)
         (constructor (mkOptions "t" (answering 200))) (VNum (NInt 42))
         [("file", VUint8Array "abc"); ("message", VStr "notes")] "abc"
         bareWorld eq_refl) "notes" (or_introl eq_refl)) eq_refl).
  - exact (proj2 (proj2 (proj1
      (postRoomFiles_wraps_byte_buffers (engine := utcEngine)
         (constructor (mkOptions "t" (answering 200))) (VNum (NInt 42))
         [("file", VBlob "abc" "text/plain" (Some "notes.txt"));
          ("message", VStr "notes")] "abc"
         bareWorld eq_refl) "notes" (or_introl eq_refl)))
      "text/plain" "notes.txt" eq_refl).
Defined.
